(** * LlamaCppEmbedding: the llama.cpp embedding client adapter

    A shallow embedding of [packages/core/src/embedding/llamacpp-embedding.ts].

    - JavaScript values are a small inductive type, with [typeof], truthiness
      and the conversions the adapter relies on.
    - Methods are computations in a state-and-exception monad.  The state holds
      the instance fields ([this]), a store of configuration objects (the
      adapter keeps a reference to the caller's object, so aliasing matters)
      and the list of HTTP requests issued so far.
    - The outside world enters as the class [Environment]: the [fetch]
      transport, the WHATWG [URL] parser, the string-to-number conversion of
      the language, and the [preprocessText] hook inherited from the base
      class [Embedding], whose code is not part of this file.
    - Strings are sequences of one-byte characters, numbers are integers or
      [NaN], and a number prints in plain decimal.
    - [await] is sequencing: one call runs at a time. *)

From Stdlib Require Import ZArith String Ascii List Bool Lia.
From stdpp Require Import base option numbers list strings pretty gmap fin_maps.

Local Open Scope Z_scope.

(** ** JavaScript values *)

(** Numbers: every numeric quantity the adapter looks at (milliseconds,
    dimensions, token limits, array lengths, HTTP status codes) is integral;
    [NaN] is what a failed numeric conversion yields. *)
Inductive number :=
  | Num (z : Z)
  | NaN.

#[local] Set Warnings "-register-all".
Inductive jsval :=
  | JUndefined
  | JNull
  | JBool (b : bool)
  | JNum (n : number)
  | JStr (s : string)
  | JArr (items : list jsval)
  | JObj (fields : list (string * jsval)).

(** [typeof v] *)
Definition typeof (v : jsval) : string :=
  match v with
  | JUndefined => "undefined"
  | JNull => "object"
  | JBool _ => "boolean"
  | JNum _ => "number"
  | JStr _ => "string"
  | JArr _ => "object"
  | JObj _ => "object"
  end.

(** ToBoolean: what [if (v)], [!v] and [v || w] test. *)
Definition truthy (v : jsval) : bool :=
  match v with
  | JUndefined | JNull => false
  | JBool b => b
  | JNum (Num z) => negb (z =? 0)
  | JNum NaN => false
  | JStr s => negb (String.eqb s "")
  | JArr _ | JObj _ => true
  end.

(** [v || w] *)
Definition js_or (v w : jsval) : jsval := if truthy v then v else w.

(** [Array.isArray(v)] *)
Definition isArray (v : jsval) : bool :=
  match v with JArr _ => true | _ => false end.

(** [v === undefined] *)
Definition is_undefined (v : jsval) : bool :=
  match v with JUndefined => true | _ => false end.

(** Template-literal conversion of a number: plain decimal digits, which is
    what JavaScript prints for an integer up to 2^53 (beyond 10^21 it turns
    to exponent notation; no property below prints a number that large). *)
Definition number_to_string (n : number) : string :=
  match n with
  | Num z => pretty z
  | NaN => "NaN"
  end.

Definition join (sep : string) (parts : list string) : string :=
  match parts with
  | [] => ""
  | p :: ps => fold_left (fun acc q => acc +:+ sep +:+ q) ps p
  end.

(** ToString, as used by template literals. *)
Fixpoint ToString (v : jsval) : string :=
  match v with
  | JUndefined => "undefined"
  | JNull => "null"
  | JBool true => "true"
  | JBool false => "false"
  | JNum n => number_to_string n
  | JStr s => s
  | JArr items =>
      join ","
        (map (fun x => match x with
                       | JUndefined | JNull => ""
                       | _ => ToString x
                       end) items)
  | JObj _ => "[object Object]"
  end.

(** Property read [v.key] on the result of [JSON.parse]: objects hold their
    own fields, arrays hold [length] and their indices, and everything else
    the adapter might be handed has no property it reads. *)
Fixpoint assoc (key : string) (fields : list (string * jsval)) : jsval :=
  match fields with
  | [] => JUndefined
  | (k, v) :: rest => if String.eqb k key then v else assoc key rest
  end.

Definition array_index (key : string) (len : nat) : option nat :=
  find (fun i => String.eqb (pretty i) key) (seq 0 len).

Definition get_prop (v : jsval) (key : string) : jsval :=
  match v with
  | JObj fields => assoc key fields
  | JArr items =>
      if String.eqb key "length" then JNum (Num (Z.of_nat (length items)))
      else match array_index key (length items) with
           | Some i => nth i items JUndefined
           | None => JUndefined
           end
  | _ => JUndefined
  end.

(** ** Strings *)

(** [s.startsWith(p)] *)
Definition startsWith (s p : string) : bool := String.prefix p s.

(** [s.includes(p)] *)
Fixpoint includes (s p : string) : bool :=
  String.prefix p s ||
  match s with
  | EmptyString => false
  | String _ rest => includes rest p
  end.

(** White space and line terminators that fit in one byte. *)
Definition is_white_space (c : ascii) : bool :=
  match nat_of_ascii c with
  | 9%nat | 10%nat | 11%nat | 12%nat | 13%nat | 32%nat | 160%nat => true
  | _ => false
  end.

Fixpoint trim_start (s : string) : string :=
  match s with
  | EmptyString => EmptyString
  | String c rest => if is_white_space c then trim_start rest else s
  end.

Fixpoint trim_end (s : string) : string :=
  match s with
  | EmptyString => EmptyString
  | String c rest =>
      match trim_end rest with
      | EmptyString => if is_white_space c then EmptyString else String c EmptyString
      | r => String c r
      end
  end.

(** [s.trim()] *)
Definition trim (s : string) : string := trim_end (trim_start s).

(** [s.replace(/\/$/, '')]: drop one trailing slash. *)
Fixpoint strip_trailing_slash (s : string) : string :=
  match s with
  | EmptyString => EmptyString
  | String c EmptyString => if Ascii.eqb c "/" then EmptyString else s
  | String c rest => String c (strip_trailing_slash rest)
  end.

(** ** Thrown values *)

(** What a [throw] can carry: the adapter's two error classes (the stored
    message already has the class prefix, see the constructors below), any
    other [Error] instance with its [name] and [message], or a value that is
    not an [Error] at all. *)
Inductive thrown :=
  | LlamaCppConfigurationError (message : string)
  | LlamaCppNetworkError (message : string) (originalError : option thrown)
  | OtherError (name message : string)
  | NonError (v : jsval).

(** [new LlamaCppConfigurationError(message)] *)
Definition new_LlamaCppConfigurationError (message : string) : thrown :=
  LlamaCppConfigurationError ("LlamaCpp configuration error: " +:+ message).

(** [new LlamaCppNetworkError(message, originalError)] *)
Definition new_LlamaCppNetworkError (message : string) (originalError : option thrown) : thrown :=
  LlamaCppNetworkError ("LlamaCpp network error: " +:+ message) originalError.

(** [e instanceof LlamaCppConfigurationError] *)
Definition is_ConfigurationError (e : thrown) : bool :=
  match e with LlamaCppConfigurationError _ => true | _ => false end.

(** [e instanceof LlamaCppNetworkError] *)
Definition is_NetworkError (e : thrown) : bool :=
  match e with LlamaCppNetworkError _ _ => true | _ => false end.

(** [e instanceof Error] *)
Definition is_Error (e : thrown) : bool :=
  match e with NonError _ => false | _ => true end.

(** [e.name] and [e.message] of an [Error] instance. *)
Definition error_name (e : thrown) : string :=
  match e with
  | LlamaCppConfigurationError _ => "LlamaCppConfigurationError"
  | LlamaCppNetworkError _ _ => "LlamaCppNetworkError"
  | OtherError name _ => name
  | NonError _ => ""
  end.

Definition error_message (e : thrown) : string :=
  match e with
  | LlamaCppConfigurationError m => m
  | LlamaCppNetworkError m _ => m
  | OtherError _ m => m
  | NonError _ => ""
  end.

(** [e instanceof Error ? e : undefined] *)
Definition as_Error (e : thrown) : option thrown :=
  if is_Error e then Some e else None.

(** A computation that ends normally or by a [throw]. *)
Inductive Outcome (A : Type) :=
  | Return (a : A)
  | Throw (e : thrown).
Arguments Return {A} a.
Arguments Throw {A} e.

(** ** Data model *)

(** [interface LlamaCppEmbeddingConfig]: six optional fields.  The adapter
    tests several of them with [typeof] at run time, so each field holds an
    arbitrary value, [JUndefined] when it is absent. *)
Record LlamaCppEmbeddingConfig := {
  host : jsval;
  model : jsval;
  codePrefix : jsval;
  dimension : jsval;
  maxTokens : jsval;
  timeout : jsval;
}.

Definition empty_config : LlamaCppEmbeddingConfig :=
  {| host := JUndefined; model := JUndefined; codePrefix := JUndefined;
     dimension := JUndefined; maxTokens := JUndefined; timeout := JUndefined |}.

Definition set_host (v : jsval) (c : LlamaCppEmbeddingConfig) :=
  {| host := v; model := model c; codePrefix := codePrefix c;
     dimension := dimension c; maxTokens := maxTokens c; timeout := timeout c |}.
Definition set_model (v : jsval) (c : LlamaCppEmbeddingConfig) :=
  {| host := host c; model := v; codePrefix := codePrefix c;
     dimension := dimension c; maxTokens := maxTokens c; timeout := timeout c |}.
Definition set_codePrefix (v : jsval) (c : LlamaCppEmbeddingConfig) :=
  {| host := host c; model := model c; codePrefix := v;
     dimension := dimension c; maxTokens := maxTokens c; timeout := timeout c |}.
Definition set_dimension (v : jsval) (c : LlamaCppEmbeddingConfig) :=
  {| host := host c; model := model c; codePrefix := codePrefix c;
     dimension := v; maxTokens := maxTokens c; timeout := timeout c |}.
Definition set_maxTokens (v : jsval) (c : LlamaCppEmbeddingConfig) :=
  {| host := host c; model := model c; codePrefix := codePrefix c;
     dimension := dimension c; maxTokens := v; timeout := timeout c |}.
Definition set_timeout (v : jsval) (c : LlamaCppEmbeddingConfig) :=
  {| host := host c; model := model c; codePrefix := codePrefix c;
     dimension := dimension c; maxTokens := maxTokens c; timeout := v |}.

(** Configuration objects live in a store and are passed by reference.  They
    are ordinary objects: a write to a field succeeds (an object that the
    caller froze is outside the model). *)
Abbreviation loc := nat.
Abbreviation store := (gmap nat LlamaCppEmbeddingConfig).

#[global] Instance config_inhabited : Inhabited LlamaCppEmbeddingConfig :=
  populate empty_config.

(** The private fields of [class LlamaCppEmbedding]. *)
Record LlamaCppEmbedding := {
  this_config : loc;
  this_dimension : jsval;
  this_dimensionDetected : bool;
  this_maxTokens : jsval;
  this_host : string;
  this_codePrefix : string;
}.

Definition set_this_dimension (v : jsval) (a : LlamaCppEmbedding) :=
  {| this_config := this_config a; this_dimension := v;
     this_dimensionDetected := this_dimensionDetected a;
     this_maxTokens := this_maxTokens a; this_host := this_host a;
     this_codePrefix := this_codePrefix a |}.
Definition set_this_dimensionDetected (b : bool) (a : LlamaCppEmbedding) :=
  {| this_config := this_config a; this_dimension := this_dimension a;
     this_dimensionDetected := b;
     this_maxTokens := this_maxTokens a; this_host := this_host a;
     this_codePrefix := this_codePrefix a |}.
Definition set_this_maxTokens (v : jsval) (a : LlamaCppEmbedding) :=
  {| this_config := this_config a; this_dimension := this_dimension a;
     this_dimensionDetected := this_dimensionDetected a;
     this_maxTokens := v; this_host := this_host a;
     this_codePrefix := this_codePrefix a |}.
Definition set_this_host (h : string) (a : LlamaCppEmbedding) :=
  {| this_config := this_config a; this_dimension := this_dimension a;
     this_dimensionDetected := this_dimensionDetected a;
     this_maxTokens := this_maxTokens a; this_host := h;
     this_codePrefix := this_codePrefix a |}.
Definition set_this_codePrefix (p : string) (a : LlamaCppEmbedding) :=
  {| this_config := this_config a; this_dimension := this_dimension a;
     this_dimensionDetected := this_dimensionDetected a;
     this_maxTokens := this_maxTokens a; this_host := this_host a;
     this_codePrefix := p |}.

(** [interface EmbeddingVector] *)
Record EmbeddingVector := {
  vector : jsval;
  vec_dimension : jsval;
}.

(** One outbound [POST].  [req_caller] records which method issued it; it is
    bookkeeping for counting detection requests and is not on the wire. *)
Inductive Caller := ByDetectDimension | ByEmbed | ByEmbedBatch.

Record Request := {
  req_caller : Caller;
  req_url : string;
  req_input : jsval;
  req_model : jsval;
  req_timeout : jsval;
}.

(** What the adapter reads of a fetch [Response]. *)
Record Response := {
  ok : bool;
  status : Z;
  statusText : string;
  text : Outcome string;
  json : Outcome jsval;
}.

(** The state a method runs in. *)
Record State := {
  this : LlamaCppEmbedding;
  heap : store;
  net : list Request;
}.

Definition add_request (r : Request) (s : State) : State :=
  {| this := this s; heap := heap s; net := net s ++ [r] |}.

Definition with_this (a : LlamaCppEmbedding) (s : State) : State :=
  {| this := a; heap := heap s; net := net s |}.

Definition with_heap (h : store) (s : State) : State :=
  {| this := this s; heap := h; net := net s |}.

(** ** The monad of methods *)

Definition M (A : Type) : Type := State -> Outcome A * State.

Definition ret {A} (a : A) : M A := fun s => (Return a, s).

Definition throw {A} (e : thrown) : M A := fun s => (Throw e, s).

Definition bind {A B} (m : M A) (k : A -> M B) : M B :=
  fun s => match m s with
           | (Return a, s') => k a s'
           | (Throw e, s') => (Throw e, s')
           end.

(** [try { body } catch (error) { handler }] *)
Definition try_catch {A} (body : M A) (handler : thrown -> M A) : M A :=
  fun s => match body s with
           | (Return a, s') => (Return a, s')
           | (Throw e, s') => handler e s'
           end.

Definition lift {A} (o : Outcome A) : M A := fun s => (o, s).

Declare Scope js_scope.
Delimit Scope js_scope with js.
Notation "x <- c ;; k" := (bind c (fun x => k))
  (at level 100, c at next level, right associativity) : js_scope.
Notation "c ;;; k" := (bind c (fun _ => k))
  (at level 100, right associativity) : js_scope.
Local Open Scope js_scope.

Definition get_this : M LlamaCppEmbedding := fun s => (Return (this s), s).

(** [this.<field> = v] *)
Definition update_this (f : LlamaCppEmbedding -> LlamaCppEmbedding) : M unit :=
  fun s => (Return tt, with_this (f (this s)) s).

(** [this.config], dereferenced. *)
Definition config_of (s : State) : LlamaCppEmbeddingConfig :=
  heap s !!! this_config (this s).

(** The request [makeRequest] sends from state [s]. *)
Definition request_of (s : State) (caller : Caller) (url : string)
    (input model_ : jsval) : Request :=
  {| req_caller := caller; req_url := url; req_input := input; req_model := model_;
     req_timeout := js_or (timeout (config_of s)) (JNum (Num 30000)) |}.

(** [this.config.model || 'embedding-model'] *)
Definition request_model (config : LlamaCppEmbeddingConfig) : jsval :=
  js_or (model config) (JStr "embedding-model").

(** The request [detectDimension] sends from state [s] for the processed
    test text. *)
Definition detection_request (s : State) (processedText : string) : Request :=
  request_of s ByDetectDimension (this_host (this s) +:+ "/v1/embeddings")
    (JStr processedText) (request_model (config_of s)).

Definition get_config : M LlamaCppEmbeddingConfig := fun s => (Return (config_of s), s).

(** [this.config.<field> = v] *)
Definition update_config (f : LlamaCppEmbeddingConfig -> LlamaCppEmbeddingConfig) : M unit :=
  fun s => (Return tt,
            with_heap (<[this_config (this s) := f (config_of s)]> (heap s)) s).

(** [array.map(callback)] where the callback may throw: the first throw ends
    the whole [map]. *)
Fixpoint Array_map {A B} (callback : A -> M B) (items : list A) : M (list B) :=
  match items with
  | [] => ret []
  | item :: rest =>
      b <- callback item;;
      bs <- Array_map callback rest;;
      ret (b :: bs)
  end.

(** The same with the callback's index argument, for a callback that only
    reads. *)
Fixpoint Array_map_indexed {A B} (callback : A -> nat -> Outcome B)
    (index : nat) (items : list A) : Outcome (list B) :=
  match items with
  | [] => Return []
  | item :: rest =>
      match callback item index with
      | Throw e => Throw e
      | Return b =>
          match Array_map_indexed callback (S index) rest with
          | Throw e => Throw e
          | Return bs => Return (b :: bs)
          end
      end
  end.

(** The elements of an array value; [v.length] and [v[0]] read them. *)
Definition array_items (v : jsval) : list jsval :=
  match v with JArr items => items | _ => [] end.

(** [response.data[0].embedding.length] *)
Definition first_embedding_length (response : jsval) : Z :=
  Z.of_nat (length (array_items
                      (get_prop (nth 0 (array_items (get_prop response "data")) JUndefined)
                         "embedding"))).

(** The text [detectDimension] embeds: its argument, or [test]. *)
Definition test_text (testText : jsval) : option string :=
  match (if is_undefined testText then JStr "test" else testText) with
  | JStr t => Some t
  | _ => None
  end.

(** Relational operators on numbers: any comparison with [NaN] is false. *)
Definition num_le (a b : number) : bool :=
  match a, b with Num x, Num y => x <=? y | _, _ => false end.

Definition num_gt (a b : number) : bool :=
  match a, b with Num x, Num y => y <? x | _, _ => false end.

Definition DEFAULT_CODE_PREFIX : string :=
  "Represent this query for searching relevant code:".

(** ** Calls, and the world outside *)

(** A call of one of the two embedding methods. *)
Inductive Call :=
  | CallEmbed (text : jsval)
  | CallEmbedBatch (texts : jsval).

(** A call of any public method, and what it hands back. *)
Inductive Operation :=
  | OpEmbed (text : jsval)
  | OpEmbedBatch (texts : jsval)
  | OpDetectDimension (testText : jsval)
  | OpGetDimension
  | OpGetProvider
  | OpGetModel
  | OpSetHost (host : jsval)
  | OpSetModel (model : jsval)
  | OpSetCodePrefix (enabled : jsval)
  | OpSetCustomCodePrefix (prefix : jsval)
  | OpSetTimeout (timeout : jsval)
  | OpGetConfig.

Inductive Result :=
  | ResVector (v : EmbeddingVector)
  | ResVectors (vs : list EmbeddingVector)
  | ResNumber (d : Z)
  | ResValue (v : jsval)
  | ResString (name : string)
  | ResUnit
  | ResConfig (l : loc).

(** What the adapter takes from outside this file. *)
Class Environment := {
  (** [fetch(url, init)]: the transport and the server behind it.  The outcome
      may depend on everything requested before. *)
  fetch : list Request -> Request -> Outcome Response;
  (** [new URL(host).protocol]; [None] when the constructor throws. *)
  URL_protocol : string -> option string;
  (** The language's conversion of a string to a number. *)
  StringToNumber : string -> number;
  (** [Embedding.preprocessText], inherited from the base class.  Of the
      adapter's fields the base class sees [maxTokens] alone: the others are
      private. *)
  preprocessText : jsval -> string -> Outcome string;
}.

(** ** The adapter *)

Section Adapter.

Context {env : Environment}.

(** ToNumber, as the relational operators apply it to an operand. *)
Definition ToNumber (v : jsval) : number :=
  match v with
  | JUndefined => NaN
  | JNull => Num 0
  | JBool true => Num 1
  | JBool false => Num 0
  | JNum n => n
  | JStr s => StringToNumber s
  | JArr _ | JObj _ => StringToNumber (ToString v)
  end.

(** [v <= 0] and [v > 600000] *)
Definition le_zero (v : jsval) : bool := num_le (ToNumber v) (Num 0).
Definition gt_600000 (v : jsval) : bool := num_gt (ToNumber v) (Num 600000).

Definition validateHostUrl (host : string) : Outcome unit :=
  match URL_protocol host with
  | Some protocol =>
      if existsb (String.eqb protocol) ["http:"; "https:"] then Return tt
      else
        (* thrown inside the [try], and re-thrown by the [catch] *)
        Throw (new_LlamaCppConfigurationError
                 ("Unsupported protocol: " +:+ protocol +:+
                  ". Only HTTP and HTTPS are supported"))
  | None =>
      Throw (new_LlamaCppConfigurationError ("Invalid host URL: " +:+ host))
  end.

Definition normalizeHost (host : string) : string := strip_trailing_slash host.

(** [validateConfig(config)]; [None] is a missing configuration object. *)
Definition validateConfig (config : option LlamaCppEmbeddingConfig) : Outcome unit :=
  match config with
  | None => Throw (new_LlamaCppConfigurationError "Configuration object is required")
  | Some config =>
      if negb (is_undefined (host config)) && negb (String.eqb (typeof (host config)) "string")
      then Throw (new_LlamaCppConfigurationError "Host must be a string")
      else if negb (is_undefined (model config)) && negb (String.eqb (typeof (model config)) "string")
      then Throw (new_LlamaCppConfigurationError "Model must be a string")
      else if negb (is_undefined (timeout config))
              && (negb (String.eqb (typeof (timeout config)) "number") || le_zero (timeout config))
      then Throw (new_LlamaCppConfigurationError "Timeout must be a positive number")
      else
        match host config with
        | JStr h => if truthy (host config) then validateHostUrl h else Return tt
        | _ => Return tt
        end
  end.

(** [config.host || 'http://localhost:8080'], for a host that passed
    [validateConfig]: undefined or a string. *)
Definition host_or_default (v : jsval) : string :=
  match js_or v (JStr "http://localhost:8080") with
  | JStr h => h
  | _ => "http://localhost:8080"
  end.

(** The constructor's two optional overrides. *)
Definition constructor_dimension (config : LlamaCppEmbeddingConfig)
    (a : LlamaCppEmbedding) : Outcome LlamaCppEmbedding :=
  if truthy (dimension config) then
    if le_zero (dimension config)
    then Throw (new_LlamaCppConfigurationError "Dimension must be a positive number")
    else Return (set_this_dimensionDetected true (set_this_dimension (dimension config) a))
  else Return a.

Definition constructor_maxTokens (config : LlamaCppEmbeddingConfig)
    (a : LlamaCppEmbedding) : Outcome LlamaCppEmbedding :=
  if truthy (maxTokens config) then
    if le_zero (maxTokens config)
    then Throw (new_LlamaCppConfigurationError "Max tokens must be a positive number")
    else Return (set_this_maxTokens (maxTokens config) a)
  else Return a.

(** The field initialisers, with [this.config] and [this.host] as the
    constructor assigns them first. *)
Definition initial_fields (l : loc) (config : LlamaCppEmbeddingConfig) : LlamaCppEmbedding :=
  {| this_config := l;
     this_dimension := JNum (Num 768);
     this_dimensionDetected := false;
     this_maxTokens := JNum (Num 8192);
     this_host := normalizeHost (host_or_default (host config));
     this_codePrefix := DEFAULT_CODE_PREFIX |}.

(** [new LlamaCppEmbedding(config)].  The new object exists only when the
    constructor returns, and its one write to the caller's object is the last
    statement, so a throwing constructor leaves the store as it was. *)
Definition constructor (config : option loc) (h : store)
    : Outcome LlamaCppEmbedding * store :=
  match validateConfig ((fun l => h !!! l) <$> config), config with
  | Throw e, _ => (Throw e, h)
  | Return _, None =>
      (* not reached: [validateConfig] throws on a missing object *)
      (Throw (new_LlamaCppConfigurationError "Configuration object is required"), h)
  | Return _, Some l =>
      let config := h !!! l in
      match constructor_dimension config (initial_fields l config) with
      | Throw e => (Throw e, h)
      | Return this1 =>
          match constructor_maxTokens config this1 with
          | Throw e => (Throw e, h)
          | Return this2 =>
              if is_undefined (codePrefix config)
              then (Return this2, <[l := set_codePrefix (JBool true) config]> h)
              else (Return this2, h)
          end
      end
  end.

(** [fetch], recorded in the request log whatever its outcome. *)
Definition do_fetch (r : Request) : M Response :=
  fun s => (fetch (net s) r, add_request r s).

(** The body of the [try] block of [makeRequest]. *)
Definition makeRequest_try (timeout : jsval) (caller : Caller) (url : string)
    (input model_ : jsval) : M jsval :=
  response <- do_fetch {| req_caller := caller; req_url := url; req_input := input;
                          req_model := model_; req_timeout := timeout |};;
  if negb (ok response) then
    let errorDetails :=
      match text response with
      | Return details => details
      | Throw _ => "Unable to read error response"
      end in
    throw (new_LlamaCppNetworkError
             ("HTTP " +:+ pretty (status response) +:+ " (" +:+ statusText response
              +:+ "): " +:+ errorDetails) None)
  else
    match json response with
    | Return responseData => ret responseData
    | Throw parseError =>
        throw (new_LlamaCppNetworkError "Invalid JSON response from server"
                 (as_Error parseError))
    end.

(** Its [catch] block. *)
Definition makeRequest_catch (timeout : jsval) (error : thrown) : M jsval :=
  (* Re-throw specific errors without wrapping *)
  if is_NetworkError error || is_ConfigurationError error then throw error
  else if is_Error error then
    if String.eqb (error_name error) "AbortError" then
      a <- get_this;;
      throw (new_LlamaCppNetworkError
               ("Request timeout after " +:+ ToString timeout +:+ "ms - server at "
                +:+ this_host a +:+ " not responding") (Some error))
    else if String.eqb (error_name error) "TypeError"
            && includes (error_message error) "fetch" then
      a <- get_this;;
      throw (new_LlamaCppNetworkError
               ("Unable to connect to llama.cpp server at " +:+ this_host a
                +:+ ". Please ensure the server is running and accessible.")
               (Some error))
    else
      throw (new_LlamaCppNetworkError
               ("Unexpected error: " +:+ error_message error) (Some error))
  else
    (* Fallback for non-Error objects *)
    throw (new_LlamaCppNetworkError "Unknown error occurred during request" None).

Definition makeRequest (caller : Caller) (url : string) (input model_ : jsval) : M jsval :=
  config <- get_config;;
  let timeout := js_or (timeout config) (JNum (Num 30000)) in
  try_catch (makeRequest_try timeout caller url input model_) (makeRequest_catch timeout).

Definition preprocessTextForCode (text : jsval) : M string :=
  match text with
  | JStr text =>
      a <- get_this;;
      processedText <- lift (preprocessText (this_maxTokens a) text);;
      config <- get_config;;
      (* Add code prefix if enabled and not already present *)
      if truthy (codePrefix config) && negb (startsWith processedText (this_codePrefix a))
      then ret (this_codePrefix a +:+ " " +:+ processedText)
      else ret processedText
  | _ => throw (new_LlamaCppConfigurationError "Text must be a string")
  end.

(** [typeof v === 'object' && v], negated: [!v || typeof v !== 'object'] *)
Definition not_an_object (v : jsval) : bool :=
  negb (truthy v) || negb (String.eqb (typeof v) "object").

(** [!v || !Array.isArray(v)] *)
Definition not_an_array (v : jsval) : bool :=
  negb (truthy v) || negb (isArray v).

(** The body of the [try] block of [detectDimension]. *)
Definition detectDimension_try (testText : string) : M Z :=
  a <- get_this;;
  (* Use raw test text without code prefix for dimension detection *)
  processedText <- lift (preprocessText (this_maxTokens a) testText);;
  config <- get_config;;
  response <- makeRequest ByDetectDimension (this_host a +:+ "/v1/embeddings")
                (JStr processedText) (request_model config);;
  if not_an_object response then
    throw (new_LlamaCppNetworkError "Invalid response format: expected object" None)
  else if not_an_array (get_prop response "data") then
    throw (new_LlamaCppNetworkError
             "Invalid response format: missing or invalid data array" None)
  else if (length (array_items (get_prop response "data")) =? 0)%nat then
    throw (new_LlamaCppNetworkError "Invalid response format: empty data array" None)
  else
    let firstItem := nth 0 (array_items (get_prop response "data")) JUndefined in
    if not_an_object firstItem then
      throw (new_LlamaCppNetworkError "Invalid response format: invalid first data item" None)
    else if not_an_array (get_prop firstItem "embedding") then
      throw (new_LlamaCppNetworkError
               "Invalid response format: missing or invalid embedding array" None)
    else
      let dimension := Z.of_nat (length (array_items (get_prop firstItem "embedding"))) in
      if dimension <=? 0 then
        throw (new_LlamaCppNetworkError
                 ("Invalid embedding dimension: " +:+ pretty dimension) None)
      else ret dimension.

(** Its [catch] block. *)
Definition detectDimension_catch (error : thrown) : M Z :=
  if is_NetworkError error || is_ConfigurationError error then throw error
  else
    let errorMessage := if is_Error error then error_message error else "Unknown error" in
    throw (new_LlamaCppNetworkError
             ("Failed to detect embedding dimension: " +:+ errorMessage) (as_Error error)).

(** [detectDimension(testText = "test")] *)
Definition detectDimension (testText : jsval) : M Z :=
  match (if is_undefined testText then JStr "test" else testText) with
  | JStr testText => try_catch (detectDimension_try testText) detectDimension_catch
  | _ => throw (new_LlamaCppConfigurationError "Test text must be a string")
  end.

(** Ensure dimension is detected before making embedding requests. *)
Definition ensureDimensionDetected : M unit :=
  a <- get_this;;
  config <- get_config;;
  if negb (this_dimensionDetected a) && negb (truthy (dimension config)) then
    detected <- detectDimension JUndefined;;
    update_this (set_this_dimension (JNum (Num detected)));;;
    update_this (set_this_dimensionDetected true)
  else ret tt.

Definition embed (text : jsval) : M EmbeddingVector :=
  (* Preprocess the text with optional code prefix *)
  processedText <- preprocessTextForCode text;;
  (* Ensure dimension is detected *)
  ensureDimensionDetected;;;
  config <- get_config;;
  a <- get_this;;
  response <- makeRequest ByEmbed (this_host a +:+ "/v1/embeddings")
                (JStr processedText) (request_model config);;
  if not_an_object response then
    throw (new_LlamaCppNetworkError "Invalid response format: expected object" None)
  else if not_an_array (get_prop response "data") then
    throw (new_LlamaCppNetworkError
             "Invalid response format: missing or invalid data array" None)
  else if (length (array_items (get_prop response "data")) =? 0)%nat then
    throw (new_LlamaCppNetworkError "Invalid response format: empty data array" None)
  else
    let firstItem := nth 0 (array_items (get_prop response "data")) JUndefined in
    if not_an_object firstItem then
      throw (new_LlamaCppNetworkError "Invalid response format: invalid first data item" None)
    else if not_an_array (get_prop firstItem "embedding") then
      throw (new_LlamaCppNetworkError
               "Invalid response format: missing or invalid embedding array" None)
    else
      a <- get_this;;
      ret {| vector := get_prop firstItem "embedding"; vec_dimension := this_dimension a |}.

(** The callback of [response.data.map] in [embedBatch]. *)
Definition embedBatch_item (dimension : jsval) (item : jsval) (index : nat)
    : Outcome EmbeddingVector :=
  if not_an_object item then
    Throw (new_LlamaCppNetworkError
             ("Invalid batch response format: invalid item at index " +:+ pretty index) None)
  else if not_an_array (get_prop item "embedding") then
    Throw (new_LlamaCppNetworkError
             ("Invalid batch response format: missing or invalid embedding at index "
              +:+ pretty index) None)
  else Return {| vector := get_prop item "embedding"; vec_dimension := dimension |}.

(** [embedBatch] up to and including its request. *)
Definition embedBatch_request (texts : jsval) : M jsval :=
  if negb (isArray texts) then
    throw (new_LlamaCppConfigurationError "Texts must be an array")
  else if (length (array_items texts) =? 0)%nat then
    throw (new_LlamaCppConfigurationError "Texts array cannot be empty")
  else
    (* Preprocess all texts with optional code prefix *)
    processedTexts <- Array_map preprocessTextForCode (array_items texts);;
    (* Ensure dimension is detected *)
    ensureDimensionDetected;;;
    config <- get_config;;
    a <- get_this;;
    makeRequest ByEmbedBatch (this_host a +:+ "/v1/embeddings")
      (JArr (map JStr processedTexts)) (request_model config).

(** [embedBatch] from the response on. *)
Definition embedBatch_response (response : jsval) : M (list EmbeddingVector) :=
  if not_an_object response then
    throw (new_LlamaCppNetworkError "Invalid batch response format: expected object" None)
  else if not_an_array (get_prop response "data") then
    throw (new_LlamaCppNetworkError
             "Invalid batch response format: missing or invalid data array" None)
  else if (length (array_items (get_prop response "data")) =? 0)%nat then
    throw (new_LlamaCppNetworkError "Invalid batch response format: empty data array" None)
  else
    a <- get_this;;
    lift (Array_map_indexed (embedBatch_item (this_dimension a)) 0
            (array_items (get_prop response "data"))).

Definition embedBatch (texts : jsval) : M (list EmbeddingVector) :=
  response <- embedBatch_request texts;;
  embedBatch_response response.

Definition getDimension : M jsval :=
  a <- get_this;; ret (this_dimension a).

Definition getProvider : string := "LlamaCpp".

Definition getModel : M jsval :=
  config <- get_config;; ret (js_or (model config) (JStr "nomic-embed-code")).

(** Set the host URL for llama.cpp server. *)
Definition setHost (host : jsval) : M unit :=
  match host with
  | JStr h =>
      lift (validateHostUrl h);;;
      update_this (set_this_host (normalizeHost h));;;
      update_config (set_host host)
  | _ => throw (new_LlamaCppConfigurationError "Host must be a string")
  end.

(** Set the model name. *)
Definition setModel (model : jsval) : M unit :=
  match model with
  | JStr name =>
      if String.eqb (trim name) "" then
        throw (new_LlamaCppConfigurationError "Model name cannot be empty")
      else
        update_config (set_model model);;;
        (* Reset dimension detection when model changes *)
        update_this (set_this_dimensionDetected false);;;
        config <- get_config;;
        if negb (truthy (dimension config)) then ensureDimensionDetected else ret tt
  | _ => throw (new_LlamaCppConfigurationError "Model must be a string")
  end.

(** Enable or disable automatic code prefix. *)
Definition setCodePrefix (enabled : jsval) : M unit :=
  match enabled with
  | JBool _ => update_config (set_codePrefix enabled)
  | _ => throw (new_LlamaCppConfigurationError "Code prefix enabled flag must be a boolean")
  end.

(** Set custom code prefix. *)
Definition setCustomCodePrefix (prefix : jsval) : M unit :=
  match prefix with
  | JStr p =>
      if String.eqb (trim p) "" then
        throw (new_LlamaCppConfigurationError "Code prefix cannot be empty")
      else
        update_this (set_this_codePrefix p);;;
        update_config (set_codePrefix (JBool true))
  | _ => throw (new_LlamaCppConfigurationError "Code prefix must be a string")
  end.

(** Set request timeout, in milliseconds. *)
Definition setTimeout (timeout : jsval) : M unit :=
  match timeout with
  | JNum _ =>
      if le_zero timeout then
        throw (new_LlamaCppConfigurationError "Timeout must be a positive number")
      else if gt_600000 timeout then
        throw (new_LlamaCppConfigurationError "Timeout cannot exceed 600000ms (10 minutes)")
      else update_config (set_timeout timeout)
  | _ => throw (new_LlamaCppConfigurationError "Timeout must be a number")
  end.

(** Get current configuration: [{ ...this.config }], a new object. *)
Definition getConfig : M loc :=
  fun s =>
    let l := fresh (dom (heap s)) in
    (Return l, with_heap (<[l := config_of s]> (heap s)) s).

(** *** Sequences of calls *)

(** One embedding call, its result dropped. *)
Definition run_call (c : Call) : M unit :=
  match c with
  | CallEmbed text => embed text;;; ret tt
  | CallEmbedBatch texts => embedBatch texts;;; ret tt
  end.

(** Calls made one after the other; the caller catches what a call throws
    and goes on. *)
Fixpoint run_calls (cs : list Call) (s : State) : State :=
  match cs with
  | [] => s
  | c :: rest => run_calls rest (snd (run_call c s))
  end.

(** *** Sequences of operations *)

Definition run_operation (op : Operation) : M Result :=
  match op with
  | OpEmbed text => v <- embed text;; ret (ResVector v)
  | OpEmbedBatch texts => vs <- embedBatch texts;; ret (ResVectors vs)
  | OpDetectDimension testText => d <- detectDimension testText;; ret (ResNumber d)
  | OpGetDimension => d <- getDimension;; ret (ResValue d)
  | OpGetProvider => ret (ResString getProvider)
  | OpGetModel => m <- getModel;; ret (ResValue m)
  | OpSetHost host => setHost host;;; ret ResUnit
  | OpSetModel model => setModel model;;; ret ResUnit
  | OpSetCodePrefix enabled => setCodePrefix enabled;;; ret ResUnit
  | OpSetCustomCodePrefix prefix => setCustomCodePrefix prefix;;; ret ResUnit
  | OpSetTimeout timeout => setTimeout timeout;;; ret ResUnit
  | OpGetConfig => l <- getConfig;; ret (ResConfig l)
  end.

(** The operations one after the other, with what each returned or threw. *)
Fixpoint run_operations (ops : list Operation) (s : State)
    : list (Outcome Result) * State :=
  match ops with
  | [] => ([], s)
  | op :: rest =>
      let (outcome, s1) := run_operation op s in
      let (outcomes, s2) := run_operations rest s1 in
      (outcome :: outcomes, s2)
  end.

End Adapter.

(** ** Vocabulary of the properties *)

(** The claimed effect of code prefixing on a text. *)
Definition with_code_prefix (prefix text : string) : string :=
  if startsWith text prefix then text else prefix +:+ " " +:+ text.

(** The state after a detection that found dimension [d]. *)
Definition detected (d : Z) (s : State) : State :=
  with_this (set_this_dimensionDetected true
               (set_this_dimension (JNum (Num d)) (this s))) s.

(** The request [embed] sends from state [s] for the processed text. *)
Definition embed_request (s : State) (processedText : string) : Request :=
  request_of s ByEmbed (this_host (this s) +:+ "/v1/embeddings")
    (JStr processedText) (request_model (config_of s)).

(** The request [embedBatch] sends from state [s] for the processed texts. *)
Definition embedBatch_request_of (s : State) (processedTexts : list string) : Request :=
  request_of s ByEmbedBatch (this_host (this s) +:+ "/v1/embeddings")
    (JArr (map JStr processedTexts)) (request_model (config_of s)).

(** How many of the requests were issued by [detectDimension]. *)
Definition is_detection (r : Request) : bool :=
  match req_caller r with ByDetectDimension => true | _ => false end.

Definition detection_count (requests : list Request) : nat :=
  length (filter (fun r => is_detection r = true) requests).

(** [s'] is [s] after some requests [l] and, at most, a dimension detection:
    the store and the other fields are as they were, and nothing at all
    changed in [this] when the dimension was already known. *)
Record extends (s s' : State) (l : list Request) : Prop := {
  ext_net : net s' = net s ++ l;
  ext_heap : heap s' = heap s;
  ext_config : this_config (this s') = this_config (this s);
  ext_host : this_host (this s') = this_host (this s);
  ext_codePrefix : this_codePrefix (this s') = this_codePrefix (this s);
  ext_maxTokens : this_maxTokens (this s') = this_maxTokens (this s);
  ext_known :
    this_dimensionDetected (this s) = true \/ truthy (dimension (config_of s)) = true ->
    this s' = this s;
}.

(** [r] is a detection request sent from [s], where no dimension was known. *)
Definition detection_from (s : State) (r : Request) : Prop :=
  this_dimensionDetected (this s) = false
  /\ truthy (dimension (config_of s)) = false
  /\ exists p, r = detection_request s p.

(** The state in which [setModel] re-runs detection: the new name is in the
    configuration object and the detected flag is cleared. *)
Definition model_set (name : string) (s : State) : State :=
  with_this (set_this_dimensionDetected false (this s))
    (with_heap (<[this_config (this s) := set_model (JStr name) (config_of s)]> (heap s)) s).

(** A response element [embedBatch] accepts, and the vector it makes of it. *)
Definition valid_item (item : jsval) : bool :=
  negb (not_an_object item) && negb (not_an_array (get_prop item "embedding")).

Definition item_vector (dimension : jsval) (item : jsval) : EmbeddingVector :=
  {| vector := get_prop item "embedding"; vec_dimension := dimension |}.

(** The caller overwrites the object at [l]. *)
Definition mutate (l : loc) (c : LlamaCppEmbeddingConfig) (s : State) : State :=
  with_heap (<[l := c]> (heap s)) s.

(** [m] neither reads nor writes the object at [l]: run after the caller has
    overwritten that object, it returns the same and leaves the same state,
    but for that object. *)
Definition frames {A} (l : loc) (c : LlamaCppEmbeddingConfig) (m : M A) : Prop :=
  forall s,
    is_Some (heap s !! l) ->
    l <> this_config (this s) ->
    m (mutate l c s) = (fst (m s), mutate l c (snd (m s)))
    /\ is_Some (heap (snd (m s)) !! l)
    /\ this_config (this (snd (m s))) = this_config (this s).

(** ** Scenarios

    Concrete environments and stores, for running the adapter. *)

Module Scenario.

(** A URL parser that knows three schemes. *)
Definition protocol_of (host : string) : option string :=
  if String.prefix "http://" host then Some "http:"
  else if String.prefix "https://" host then Some "https:"
  else if String.prefix "ftp://" host then Some "ftp:"
  else None.

Definition ok_response (body : jsval) : Response :=
  {| ok := true; status := 200; statusText := "OK";
     text := Return ""; json := Return body |}.

Definition embedding3 : jsval :=
  JObj [("embedding", JArr [JNum (Num 1); JNum (Num 2); JNum (Num 3)])].

(** A server that answers every text with a vector of length three. *)
Definition fetch_ok (history : list Request) (r : Request) : Outcome Response :=
  Return (ok_response
            (JObj [("data",
                    match req_input r with
                    | JArr texts => JArr (map (fun _ => embedding3) texts)
                    | _ => JArr [embedding3]
                    end)])).

(** A server whose batch answers have a hole at index 1. *)
Definition fetch_hole (history : list Request) (r : Request) : Outcome Response :=
  Return (ok_response (JObj [("data", JArr [embedding3; JNull; embedding3])])).

(** A transport that fails with the given value. *)
Definition fetch_fails (e : thrown) (history : list Request) (r : Request)
    : Outcome Response := Throw e.

Definition env_of (f : list Request -> Request -> Outcome Response)
    (hook : jsval -> string -> Outcome string) : Environment :=
  {| fetch := f; URL_protocol := protocol_of;
     StringToNumber := fun _ => NaN; preprocessText := hook |}.

Definition identity_hook (maxTokens : jsval) (text : string) : Outcome string :=
  Return text.

(** A hook that fails on every text. *)
Definition failing_hook (maxTokens : jsval) (text : string) : Outcome string :=
  Throw (OtherError "RangeError" "text too long").

(** The caller's configuration object sits at location 1. *)
Definition store_of (config : LlamaCppEmbeddingConfig) : store := {[ 1%nat := config ]}.

(** An adapter as the constructor leaves it for [{}]. *)
Definition fresh_adapter : State :=
  {| this := {| this_config := 1%nat;
                this_dimension := JNum (Num 768);
                this_dimensionDetected := false;
                this_maxTokens := JNum (Num 8192);
                this_host := "http://localhost:8080";
                this_codePrefix := DEFAULT_CODE_PREFIX |};
     heap := store_of (set_codePrefix (JBool true) empty_config);
     net := [] |}.

Definition abort_error : thrown := OtherError "AbortError" "This operation was aborted".

Definition env_ok : Environment := env_of fetch_ok identity_hook.
Definition env_hole : Environment := env_of fetch_hole identity_hook.
Definition env_abort : Environment := env_of (fetch_fails abort_error) identity_hook.
Definition env_no_hook : Environment := env_of fetch_ok failing_hook.

(** An HTTP error whose body cannot be read. *)
Definition response_503 : Response :=
  {| ok := false; status := 503; statusText := "Service Unavailable";
     text := Throw (OtherError "TypeError" "body stream already read");
     json := Throw (OtherError "SyntaxError" "Unexpected token") |}.

(** A server that answers every request with it. *)
Definition fetch_503 (history : list Request) (r : Request) : Outcome Response :=
  Return response_503.

Definition env_503 : Environment := env_of fetch_503 identity_hook.

(** An adapter built with [{ dimension: 5 }]. *)
Definition fixed_adapter : State :=
  {| this := {| this_config := 1%nat;
                this_dimension := JNum (Num 5);
                this_dimensionDetected := true;
                this_maxTokens := JNum (Num 8192);
                this_host := "http://localhost:8080";
                this_codePrefix := DEFAULT_CODE_PREFIX |};
     heap := store_of (set_codePrefix (JBool true)
                         (set_dimension (JNum (Num 5)) empty_config));
     net := [] |}.

(** A server that answers the first request and fails every later one. *)
Definition fetch_once (history : list Request) (r : Request) : Outcome Response :=
  match history with
  | [] => fetch_ok history r
  | _ => fetch_503 history r
  end.

Definition env_once : Environment := env_of fetch_once identity_hook.



(** A hook that hands back one space for the empty text and every other text
    as it is. *)
Definition blank_to_space_hook (maxTokens : jsval) (text : string) : Outcome string :=
  Return (if String.eqb text "" then " " else text).

Definition env_blank : Environment := env_of fetch_ok blank_to_space_hook.

End Scenario.

(** ** Properties *)

Create HintDb frames.

Ltac unfold_monad :=
  unfold bind, ret, throw, try_catch, lift, get_this, update_this, get_config,
    update_config in *; simpl in *.

(** Sanity checks of the value model. *)

Example typeof_null : typeof JNull = "object".
Proof. reflexivity. Qed.

Example ToString_array :
  ToString (JArr [JNum (Num 1); JNull; JStr "a"; JNum (Num (-20))]) = "1,,a,-20".
Proof. vm_compute. reflexivity. Qed.

Example get_prop_index :
  get_prop (JArr [JStr "a"; JStr "b"]) "1" = JStr "b"
  /\ get_prop (JArr [JStr "a"; JStr "b"]) "01" = JUndefined
  /\ get_prop (JArr [JStr "a"; JStr "b"]) "length" = JNum (Num 2).
Proof. vm_compute. auto. Qed.

Example trim_blank : trim "  	 " = "" /\ trim "  a b  " = "a b".
Proof. vm_compute. auto. Qed.

Example strip_slash :
  strip_trailing_slash "http://h:1/" = "http://h:1"
  /\ strip_trailing_slash "http://h//" = "http://h/"
  /\ strip_trailing_slash "http://h" = "http://h".
Proof. vm_compute. auto. Qed.

Example includes_fetch : includes "failed to fetch" "fetch" = true /\ includes "abc" "fetch" = false.
Proof. vm_compute. auto. Qed.

Section Properties.

Context {env : Environment}.

(** [makeRequest] issues exactly one request, whatever comes back. *)
Lemma makeRequest_state caller url input m s :
  snd (makeRequest caller url input m s)
  = add_request (request_of s caller url input m) s.
Proof.
  unfold makeRequest, makeRequest_try, makeRequest_catch, do_fetch, request_of.
  unfold_monad.
  destruct (fetch _ _) as [response|e]; simpl.
  - destruct (ok response); simpl; [destruct (json response)|]; reflexivity.
  - repeat (case_match; simplify_eq/=); reflexivity.
Qed.

Lemma makeRequest_Return caller url input m s j :
  fst (makeRequest caller url input m s) = Return j ->
  exists response,
    fetch (net s) (request_of s caller url input m) = Return response
    /\ ok response = true /\ json response = Return j.
Proof.
  unfold makeRequest, makeRequest_try, makeRequest_catch, do_fetch, request_of.
  unfold_monad.
  destruct (fetch _ _) as [response|e] eqn:Hf; simpl.
  - destruct (ok response) eqn:Hok; simpl.
    + destruct (json response) eqn:Hj; simpl; intros H; [|discriminate H].
      exists response. injection H as ->. auto.
    + intros H. discriminate H.
  - repeat (case_match; simplify_eq/=); discriminate.
Qed.

Lemma makeRequest_Throw caller url input m s e :
  fst (makeRequest caller url input m s) = Throw e ->
  is_NetworkError e || is_ConfigurationError e = true.
Proof.
  unfold makeRequest, makeRequest_try, makeRequest_catch, do_fetch.
  unfold_monad.
  destruct (fetch _ _) as [response|e']; simpl.
  - destruct (ok response); simpl; [destruct (json response); simpl|];
      intros H; simplify_eq/=; reflexivity.
  - destruct (is_NetworkError e' || is_ConfigurationError e') eqn:He; simpl.
    + intros H; simplify_eq/=. exact He.
    + intros H. repeat (case_match; simplify_eq/=); reflexivity.
Qed.

Ltac run_makeRequest :=
  match goal with
  | |- context [makeRequest ?c ?u ?i ?m ?s] =>
      let o := fresh "o" in
      let s' := fresh "s'" in
      let Hm := fresh "Hm" in
      let Hs := fresh "Hs" in
      let Hr := fresh "Hr" in
      let Ht := fresh "Ht" in
      pose proof (makeRequest_state c u i m s) as Hs;
      pose proof (makeRequest_Return c u i m s) as Hr;
      pose proof (makeRequest_Throw c u i m s) as Ht;
      destruct (makeRequest c u i m s) as [o s'] eqn:Hm;
      simpl in Hs, Hr, Ht; subst s'
  end.

(** [detectDimension]'s [try] block: nothing happens when the inherited
    hook throws, and otherwise exactly one request goes out. *)
Lemma detectDimension_try_state testText s :
  match preprocessText (this_maxTokens (this s)) testText with
  | Throw e => detectDimension_try testText s = (Throw e, s)
  | Return p => snd (detectDimension_try testText s)
                = add_request (detection_request s p) s
  end.
Proof.
  unfold detectDimension_try. unfold_monad.
  destruct (preprocessText (this_maxTokens (this s)) testText) as [p|e]; simpl; [|reflexivity].
  run_makeRequest. destruct o; simpl; [|reflexivity].
  repeat (case_match; simpl); reflexivity.
Qed.

Lemma detectDimension_try_Return testText s d :
  fst (detectDimension_try testText s) = Return d ->
  exists p response j,
    preprocessText (this_maxTokens (this s)) testText = Return p
    /\ fetch (net s) (detection_request s p) = Return response
    /\ ok response = true
    /\ json response = Return j
    /\ d = first_embedding_length j
    /\ 0 < d.
Proof.
  unfold detectDimension_try. unfold_monad.
  destruct (preprocessText (this_maxTokens (this s)) testText) as [p|e]; simpl; [|discriminate].
  run_makeRequest. destruct o as [j|e]; simpl; [|discriminate].
  destruct (Hr j eq_refl) as (response & Hf & Hok & Hj).
  fold (first_embedding_length j).
  destruct (not_an_object j); simpl; [discriminate|].
  destruct (not_an_array (get_prop j "data")); simpl; [discriminate|].
  destruct (_ =? _)%nat; simpl; [discriminate|].
  destruct (not_an_object _); simpl; [discriminate|].
  destruct (not_an_array _); simpl; [discriminate|].
  destruct (first_embedding_length j <=? 0) eqn:Hd; simpl; [discriminate|].
  intros Heq. injection Heq as <-.
  exists p, response, j. repeat split; try assumption. lia.
Qed.

(** The [catch] blocks only throw. *)
Lemma detectDimension_catch_throws error s :
  exists e, detectDimension_catch error s = (Throw e, s).
Proof.
  unfold detectDimension_catch. unfold_monad.
  destruct (is_NetworkError error || is_ConfigurationError error); eauto.
Qed.

Lemma detectDimension_state testText s :
  snd (detectDimension testText s) = s
  \/ exists t p, test_text testText = Some t
                 /\ preprocessText (this_maxTokens (this s)) t = Return p
                 /\ snd (detectDimension testText s)
                    = add_request (detection_request s p) s.
Proof.
  unfold detectDimension, test_text.
  destruct (if is_undefined testText then JStr "test" else testText);
    try (left; reflexivity).
  unfold try_catch.
  pose proof (detectDimension_try_state s0 s) as Hs.
  destruct (preprocessText (this_maxTokens (this s)) s0) as [p|e] eqn:Hp.
  - right. exists s0, p. split; [reflexivity|]. split; [assumption|].
    destruct (detectDimension_try s0 s) as [[d|e] s'] eqn:Ht; simpl in *; [assumption|].
    destruct (detectDimension_catch_throws e s') as [e' ->]. assumption.
  - left. rewrite Hs.
    destruct (detectDimension_catch_throws e s) as [e' ->]. reflexivity.
Qed.

Lemma detectDimension_Return testText s d :
  fst (detectDimension testText s) = Return d ->
  exists t p response j,
    test_text testText = Some t
    /\ preprocessText (this_maxTokens (this s)) t = Return p
    /\ snd (detectDimension testText s) = add_request (detection_request s p) s
    /\ fetch (net s) (detection_request s p) = Return response
    /\ ok response = true
    /\ json response = Return j
    /\ d = first_embedding_length j
    /\ 0 < d.
Proof.
  unfold detectDimension, test_text.
  destruct (if is_undefined testText then JStr "test" else testText);
    try discriminate.
  unfold try_catch.
  pose proof (detectDimension_try_state s0 s) as Hs.
  pose proof (detectDimension_try_Return s0 s) as Hr.
  destruct (detectDimension_try s0 s) as [[d'|e] s'] eqn:Ht; simpl in *.
  - intros H. injection H as ->.
    destruct (Hr d eq_refl) as (p & response & j & Hp & Hf & Hok & Hj & Hd & Hpos).
    rewrite Hp in Hs. exists s0, p, response, j. auto 10.
  - destruct (detectDimension_catch_throws e s') as [e' ->]. discriminate.
Qed.

(** *** Prefixing *)

Lemma preprocessTextForCode_state text s :
  snd (preprocessTextForCode text s) = s.
Proof.
  unfold preprocessTextForCode. destruct text; try reflexivity.
  unfold_monad. destruct (preprocessText _ _); simpl; [|reflexivity].
  destruct (_ && _); reflexivity.
Qed.

Lemma preprocessTextForCode_string text s p :
  preprocessText (this_maxTokens (this s)) text = Return p ->
  preprocessTextForCode (JStr text) s
  = (Return (if truthy (codePrefix (config_of s))
             then with_code_prefix (this_codePrefix (this s)) p else p), s).
Proof.
  intros Hp. unfold preprocessTextForCode, with_code_prefix. unfold_monad.
  rewrite Hp. simpl.
  destruct (truthy _); simpl; [|reflexivity].
  destruct (startsWith _ _); reflexivity.
Qed.

Lemma Array_map_preprocess_state texts s :
  snd (Array_map preprocessTextForCode texts s) = s.
Proof.
  induction texts as [|text rest IH]; [reflexivity|]. simpl. unfold_monad.
  pose proof (preprocessTextForCode_state text s) as Hs.
  destruct (preprocessTextForCode text s) as [[pt|e] s1]; simpl in *; subst s1;
    [|reflexivity].
  destruct (Array_map preprocessTextForCode rest s) as [[pts|e] s2]; simpl in *;
    subst s2; reflexivity.
Qed.

(** *** Dimension detection *)

Lemma ensureDimensionDetected_noop s :
  this_dimensionDetected (this s) = true \/ truthy (dimension (config_of s)) = true ->
  ensureDimensionDetected s = (Return tt, s).
Proof.
  intros H. unfold ensureDimensionDetected. unfold_monad.
  destruct H as [-> | ->]; [reflexivity|]. rewrite andb_false_r. reflexivity.
Qed.

Lemma ensureDimensionDetected_detects s :
  this_dimensionDetected (this s) = false ->
  truthy (dimension (config_of s)) = false ->
  ensureDimensionDetected s
  = match detectDimension JUndefined s with
    | (Return d, s') => (Return tt, detected d s')
    | (Throw e, s') => (Throw e, s')
    end.
Proof.
  intros Hflag Hdim. unfold ensureDimensionDetected. unfold_monad.
  rewrite Hflag, Hdim. simpl.
  destruct (detectDimension JUndefined s) as [[d|e] s']; reflexivity.
Qed.

(** What one call of [ensureDimensionDetected] can do. *)
Lemma ensureDimensionDetected_cases s :
  (ensureDimensionDetected s = (Return tt, s)
   /\ (this_dimensionDetected (this s) = true \/ truthy (dimension (config_of s)) = true))
  \/ (this_dimensionDetected (this s) = false
      /\ truthy (dimension (config_of s)) = false
      /\ ((exists e, ensureDimensionDetected s = (Throw e, s))
          \/ (exists e p,
                preprocessText (this_maxTokens (this s)) "test" = Return p
                /\ ensureDimensionDetected s
                   = (Throw e, add_request (detection_request s p) s))
          \/ (exists d p response j,
                preprocessText (this_maxTokens (this s)) "test" = Return p
                /\ ensureDimensionDetected s
                   = (Return tt, detected d (add_request (detection_request s p) s))
                /\ fetch (net s) (detection_request s p) = Return response
                /\ ok response = true
                /\ json response = Return j
                /\ d = first_embedding_length j
                /\ 0 < d))).
Proof.
  destruct (this_dimensionDetected (this s)) eqn:Hflag.
  { left. split; [apply ensureDimensionDetected_noop|]; auto. }
  destruct (truthy (dimension (config_of s))) eqn:Hdim.
  { left. split; [apply ensureDimensionDetected_noop|]; auto. }
  right. split; [reflexivity|]. split; [reflexivity|].
  rewrite (ensureDimensionDetected_detects s Hflag Hdim).
  pose proof (detectDimension_state JUndefined s) as Hs.
  pose proof (detectDimension_Return JUndefined s) as Hr.
  destruct (detectDimension JUndefined s) as [[d|e] s'] eqn:Hd; simpl in *.
  - right. right.
    destruct (Hr d eq_refl) as (t & p & response & j & Ht & Hp & Hs' & Hf & Hok & Hj & Hlen & Hpos).
    injection Ht as <-. subst s'. exists d, p, response, j. auto 10.
  - destruct Hs as [-> | (t & p & Ht & Hp & ->)].
    + left. eauto.
    + right. left. injection Ht as <-. eauto.
Qed.

(** *** embed and embedBatch *)

Lemma embed_cases text s :
  (exists e, fst (preprocessTextForCode text s) = Throw e /\ embed text s = (Throw e, s))
  \/ (exists pt e s1,
        fst (preprocessTextForCode text s) = Return pt
        /\ ensureDimensionDetected s = (Throw e, s1)
        /\ embed text s = (Throw e, s1))
  \/ (exists pt s1 o,
        fst (preprocessTextForCode text s) = Return pt
        /\ ensureDimensionDetected s = (Return tt, s1)
        /\ embed text s = (o, add_request (embed_request s1 pt) s1)).
Proof.
  remember (embed text s) as r eqn:Hr.
  unfold embed in Hr. unfold bind at 1 in Hr.
  pose proof (preprocessTextForCode_state text s) as Hs.
  destruct (preprocessTextForCode text s) as [[pt|e] s0]; simpl in Hs; subst s0; simpl.
  2:{ left. eauto 10. }
  right. unfold bind at 1 in Hr.
  destruct (ensureDimensionDetected s) as [[[]|e] s1]; simpl.
  2:{ left. eauto 10. }
  right. exists pt, s1. subst r. unfold_monad. run_makeRequest.
  destruct o as [response|e]; simpl; [|eauto 10].
  repeat (case_match; simpl); eauto 10.
Qed.

Lemma embedBatch_cases texts s :
  (exists e, embedBatch texts s = (Throw e, s))
  \/ (exists pts e s1,
        fst (Array_map preprocessTextForCode (array_items texts) s) = Return pts
        /\ ensureDimensionDetected s = (Throw e, s1)
        /\ embedBatch texts s = (Throw e, s1))
  \/ (exists pts s1 o,
        fst (Array_map preprocessTextForCode (array_items texts) s) = Return pts
        /\ ensureDimensionDetected s = (Return tt, s1)
        /\ embedBatch texts s = (o, add_request (embedBatch_request_of s1 pts) s1)).
Proof.
  remember (embedBatch texts s) as r eqn:Hr.
  unfold embedBatch, embedBatch_request in Hr. unfold bind at 1 in Hr.
  destruct (negb (isArray texts)); simpl in Hr; [left; eauto 10|].
  destruct (_ =? _)%nat; simpl in Hr; [left; eauto 10|].
  unfold bind at 1 in Hr.
  pose proof (Array_map_preprocess_state (array_items texts) s) as Hs.
  destruct (Array_map preprocessTextForCode (array_items texts) s) as [[pts|e] s0];
    simpl in Hs; subst s0; simpl.
  2:{ left. eauto 10. }
  right. unfold bind at 1 in Hr.
  destruct (ensureDimensionDetected s) as [[[]|e] s1]; simpl.
  2:{ left. eauto 10. }
  right. exists pts, s1. subst r. unfold_monad. run_makeRequest.
  destruct o as [response|e]; simpl; [|eauto 10].
  unfold embedBatch_response. unfold_monad.
  repeat (case_match; simpl); eauto 10.
Qed.

(** *** The requests a call adds *)

Lemma extends_refl s : extends s s [].
Proof. split; auto. symmetry. apply app_nil_r. Qed.

Lemma extends_config_of s s' l : extends s s' l -> config_of s' = config_of s.
Proof. intros [? Hh Hc ? ? ? ?]. unfold config_of. rewrite Hh, Hc. reflexivity. Qed.

Lemma extends_add_request s s' l r :
  extends s s' l -> extends s (add_request r s') (l ++ [r]).
Proof.
  intros [Hn ? ? ? ? ? ?]. split; simpl; auto.
  rewrite Hn. symmetry. apply app_assoc.
Qed.

Lemma extends_detected s d r :
  this_dimensionDetected (this s) = false ->
  truthy (dimension (config_of s)) = false ->
  extends s (detected d (add_request r s)) [r].
Proof.
  intros Hflag Hdim. split; simpl; auto.
  intros [H|H]; congruence.
Qed.

Lemma embed_request_extends s s' l pt :
  extends s s' l -> embed_request s' pt = embed_request s pt.
Proof.
  intros H. unfold embed_request, request_of.
  rewrite (extends_config_of _ _ _ H), (ext_host _ _ _ H). reflexivity.
Qed.

Lemma embedBatch_request_of_extends s s' l pts :
  extends s s' l -> embedBatch_request_of s' pts = embedBatch_request_of s pts.
Proof.
  intros H. unfold embedBatch_request_of, request_of.
  rewrite (extends_config_of _ _ _ H), (ext_host _ _ _ H). reflexivity.
Qed.

Lemma ensureDimensionDetected_extends s :
  exists l, extends s (snd (ensureDimensionDetected s)) l
            /\ Forall (detection_from s) l.
Proof.
  destruct (ensureDimensionDetected_cases s)
    as [[-> _] | (Hflag & Hdim & [[e ->] | [(e & p & _ & ->) | (d & p & r & j & _ & -> & _)]])];
    simpl.
  - exists []. split; [apply extends_refl | constructor].
  - exists []. split; [apply extends_refl | constructor].
  - exists [detection_request s p]. split.
    + apply (extends_add_request s s [] _ (extends_refl s)).
    + repeat constructor; eauto.
  - exists [detection_request s p]. split.
    + apply extends_detected; assumption.
    + repeat constructor; eauto.
Qed.

Lemma embed_extends text s :
  exists l, extends s (snd (embed text s)) l
            /\ Forall (fun r => detection_from s r
                                \/ exists pt, fst (preprocessTextForCode text s) = Return pt
                                              /\ r = embed_request s pt) l.
Proof.
  destruct (ensureDimensionDetected_extends s) as (l & Hext & Hl).
  assert (Hl' : Forall (fun r => detection_from s r
                                \/ exists pt, fst (preprocessTextForCode text s) = Return pt
                                              /\ r = embed_request s pt) l).
  { eapply Forall_impl; [exact Hl|]. simpl. auto. }
  destruct (embed_cases text s)
    as [(e & _ & ->) | [(pt & e & s1 & Hpt & Hens & ->) | (pt & s1 & o & Hpt & Hens & ->)]];
    simpl.
  - exists []. split; [apply extends_refl | constructor].
  - rewrite Hens in Hext. simpl in Hext. eauto.
  - rewrite Hens in Hext. simpl in Hext. exists (l ++ [embed_request s1 pt]). split.
    + apply extends_add_request. assumption.
    + apply Forall_app. split; [assumption|]. apply Forall_singleton. right.
      exists pt. split; [assumption|]. eapply embed_request_extends; eassumption.
Qed.

Lemma embedBatch_extends texts s :
  exists l, extends s (snd (embedBatch texts s)) l
            /\ Forall (fun r => detection_from s r
                                \/ exists pts,
                                     fst (Array_map preprocessTextForCode
                                            (array_items texts) s) = Return pts
                                     /\ r = embedBatch_request_of s pts) l.
Proof.
  destruct (ensureDimensionDetected_extends s) as (l & Hext & Hl).
  assert (Hl' : Forall (fun r => detection_from s r
                                \/ exists pts,
                                     fst (Array_map preprocessTextForCode
                                            (array_items texts) s) = Return pts
                                     /\ r = embedBatch_request_of s pts) l).
  { eapply Forall_impl; [exact Hl|]. simpl. auto. }
  destruct (embedBatch_cases texts s)
    as [(e & ->) | [(pts & e & s1 & Hpts & Hens & ->) | (pts & s1 & o & Hpts & Hens & ->)]];
    simpl.
  - exists []. split; [apply extends_refl | constructor].
  - rewrite Hens in Hext. simpl in Hext. eauto.
  - rewrite Hens in Hext. simpl in Hext. exists (l ++ [embedBatch_request_of s1 pts]). split.
    + apply extends_add_request. assumption.
    + apply Forall_app. split; [assumption|]. apply Forall_singleton. right.
      exists pts. split; [assumption|]. eapply embedBatch_request_of_extends; eassumption.
Qed.

(** *** Code prefixing *)

Lemma prefix_append (p rest : string) : String.prefix p (p +:+ rest) = true.
Proof.
  induction p as [|c p IH].
  - change ("" +:+ rest) with rest. destruct rest; reflexivity.
  - change (String c p +:+ rest) with (String c (p +:+ rest)). simpl.
    destruct (ascii_dec c c); [assumption | congruence].
Qed.

(** A text that carries the prefix is left alone: prefixing twice is
    prefixing once. *)
Lemma with_code_prefix_idempotent prefix text :
  with_code_prefix prefix (with_code_prefix prefix text) = with_code_prefix prefix text.
Proof.
  unfold with_code_prefix at 2. destruct (startsWith text prefix) eqn:Hs.
  - unfold with_code_prefix. rewrite Hs. reflexivity.
  - unfold with_code_prefix. rewrite Hs. unfold startsWith.
    rewrite prefix_append. reflexivity.
Qed.

Lemma Array_map_preprocess_strings texts ps s :
  Forall2 (fun text p => preprocessText (this_maxTokens (this s)) text = Return p) texts ps ->
  Array_map preprocessTextForCode (map JStr texts) s
  = (Return (map (fun p => if truthy (codePrefix (config_of s))
                           then with_code_prefix (this_codePrefix (this s)) p
                           else p) ps), s).
Proof.
  induction 1 as [|text p texts ps Hp _ IH]; [reflexivity|].
  cbn [map Array_map]. unfold bind at 1.
  rewrite (preprocessTextForCode_string _ _ _ Hp).
  unfold bind at 1. rewrite IH. reflexivity.
Qed.

(** Once its text is preprocessed and the dimension is ensured, [embed]
    sends its request. *)
Lemma embed_sends text s pt s1 :
  fst (preprocessTextForCode text s) = Return pt ->
  ensureDimensionDetected s = (Return tt, s1) ->
  snd (embed text s) = add_request (embed_request s1 pt) s1.
Proof.
  intros Hpt Hens.
  destruct (embed_cases text s)
    as [(e & Hpre & _) | [(pt' & e & s1' & _ & Hens' & _) | (pt' & s1' & o & Hpt' & Hens' & ->)]];
    try congruence.
  rewrite Hpt in Hpt'. injection Hpt' as <-.
  rewrite Hens in Hens'. injection Hens' as <-. reflexivity.
Qed.

(** So does [embedBatch], for an array that is not empty. *)
Lemma embedBatch_sends item items s pts s1 :
  Array_map preprocessTextForCode (item :: items) s = (Return pts, s) ->
  ensureDimensionDetected s = (Return tt, s1) ->
  snd (embedBatch (JArr (item :: items)) s)
  = add_request (embedBatch_request_of s1 pts) s1.
Proof.
  intros Hpts Hens. unfold embedBatch, embedBatch_request.
  cbn [isArray negb array_items length Nat.eqb].
  unfold bind at 1 2. rewrite Hpts. unfold bind at 1. rewrite Hens.
  unfold bind, get_config, get_this. cbn beta iota.
  pose proof (makeRequest_state ByEmbedBatch (this_host (this s1) +:+ "/v1/embeddings")
                (JArr (map JStr pts)) (request_model (config_of s1)) s1) as Hst.
  destruct (makeRequest ByEmbedBatch (this_host (this s1) +:+ "/v1/embeddings")
              (JArr (map JStr pts)) (request_model (config_of s1)) s1) as [[j|e] s2];
    cbn [snd] in Hst; subst s2; [|reflexivity].
  unfold embedBatch_response, throw, lift.
  destruct (not_an_object j); [reflexivity|].
  destruct (not_an_array (get_prop j "data")); [reflexivity|].
  destruct (length (array_items (get_prop j "data")) =? 0)%nat; reflexivity.
Qed.

(** C1 (as amended).  With automatic code prefixing enabled, the text sent
    to the server is the text that the inherited [preprocessText] hands back,
    [p], when [p] already starts with the configured prefix, and the prefix,
    one space and [p] otherwise ([with_code_prefix]); a text that carries the
    prefix does not get it twice.  [embed] sends exactly this text as the
    input of its request as soon as the dimension is ensured, and sends no
    other text; [embedBatch] sends the list of the texts so built, one per
    element and in order. *)
Theorem code_prefix_sent (s : State) (texts ps : list string) :
  truthy (codePrefix (config_of s)) = true ->
  Forall2 (fun text p => preprocessText (this_maxTokens (this s)) text = Return p) texts ps ->
  let prefixed := with_code_prefix (this_codePrefix (this s)) in
  Forall2 (fun text p =>
             preprocessTextForCode (JStr text) s = (Return (prefixed p), s)
             /\ (forall s1,
                   ensureDimensionDetected s = (Return tt, s1) ->
                   exists r, net (snd (embed (JStr text) s)) = net s1 ++ [r]
                             /\ req_caller r = ByEmbed
                             /\ req_input r = JStr (prefixed p))
             /\ (exists l, net (snd (embed (JStr text) s)) = net s ++ l
                           /\ Forall (fun r => req_caller r = ByEmbed ->
                                               req_input r = JStr (prefixed p)) l)
             /\ prefixed (prefixed p) = prefixed p) texts ps
  /\ (texts <> [] ->
      forall s1,
        ensureDimensionDetected s = (Return tt, s1) ->
        exists r, net (snd (embedBatch (JArr (map JStr texts)) s)) = net s1 ++ [r]
                  /\ req_caller r = ByEmbedBatch
                  /\ req_input r = JArr (map (fun p => JStr (prefixed p)) ps))
  /\ (exists l, net (snd (embedBatch (JArr (map JStr texts)) s)) = net s ++ l
                /\ Forall (fun r => req_caller r = ByEmbedBatch ->
                                    req_input r = JArr (map (fun p => JStr (prefixed p)) ps)) l).
Proof.
  intros Hon Hhook prefixed. split; [|split].
  - eapply Forall2_impl; [exact Hhook|]. intros text p Hp. cbv beta in Hp.
    pose proof (preprocessTextForCode_string text s p Hp) as Hpre.
    rewrite Hon in Hpre. split; [exact Hpre|]. split; [|split].
    + intros s1 Hens.
      exists (embed_request s1 (prefixed p)).
      rewrite (embed_sends (JStr text) s (prefixed p) s1); [auto|rewrite Hpre; reflexivity|exact Hens].
    + destruct (embed_extends (JStr text) s) as (l & Hext & Hl).
      exists l. split; [apply (ext_net _ _ _ Hext)|].
      eapply Forall_impl; [exact Hl|]. cbv beta.
      intros r [(_ & _ & q & ->) | (pt & Hpt & ->)] Hcaller.
      * discriminate Hcaller.
      * rewrite Hpre in Hpt. simpl in Hpt. injection Hpt as <-. reflexivity.
    + apply with_code_prefix_idempotent.
  - intros Hne s1 Hens.
    pose proof (Array_map_preprocess_strings texts ps s Hhook) as Hpre.
    rewrite Hon in Hpre.
    destruct texts as [|text texts]; [contradiction|].
    exists (embedBatch_request_of s1 (map prefixed ps)).
    cbn [map] in Hpre |- *.
    rewrite (embedBatch_sends (JStr text) (map JStr texts) s (map prefixed ps) s1 Hpre Hens).
    split; [reflexivity|]. split; [reflexivity|].
    simpl. rewrite map_map. reflexivity.
  - pose proof (Array_map_preprocess_strings texts ps s Hhook) as Hpre.
    rewrite Hon in Hpre.
    destruct (embedBatch_extends (JArr (map JStr texts)) s) as (l & Hext & Hl).
    exists l. split; [apply (ext_net _ _ _ Hext)|].
    eapply Forall_impl; [exact Hl|]. cbv beta.
    intros r [(_ & _ & q & ->) | (pts & Hpts & ->)] Hcaller.
    + discriminate Hcaller.
    + unfold array_items in Hpts. rewrite Hpre in Hpts. simpl in Hpts.
      injection Hpts as <-. simpl.
      rewrite map_map. reflexivity.
Qed.

(** *** Construction *)

(** What the constructor does with a numeric dimension override. *)
Lemma constructor_dimension_number config a z :
  dimension config = JNum (Num z) ->
  constructor_dimension config a
  = if z <? 0 then Throw (new_LlamaCppConfigurationError "Dimension must be a positive number")
    else if z =? 0 then Return a
    else Return (set_this_dimensionDetected true (set_this_dimension (JNum (Num z)) a)).
Proof.
  intros Hd. unfold constructor_dimension, le_zero. rewrite Hd. simpl.
  destruct (Z.eqb_spec z 0) as [->|Hz]; simpl; [reflexivity|].
  destruct (Z.leb_spec z 0), (Z.ltb_spec z 0); try reflexivity; lia.
Qed.

(** C2.  A dimension override of zero is present and is not a positive
    number, yet the constructor returns: the truthiness guard around the
    check skips it, the adapter keeps the default 768 and treats the
    dimension as not configured. *)
Theorem constructor_accepts_zero_dimension :
  let config := set_dimension (JNum (Num 0)) empty_config in
  fst (constructor (Some 1%nat) (Scenario.store_of config))
  = Return {| this_config := 1%nat;
              this_dimension := JNum (Num 768);
              this_dimensionDetected := false;
              this_maxTokens := JNum (Num 8192);
              this_host := "http://localhost:8080";
              this_codePrefix := DEFAULT_CODE_PREFIX |}.
Proof.
  simpl. unfold constructor, Scenario.store_of. simpl.
  rewrite lookup_total_singleton_eq. reflexivity.
Qed.

(** What [setTimeout] does with a number. *)
Lemma setTimeout_number z s :
  setTimeout (JNum (Num z)) s
  = if z <=? 0
    then (Throw (new_LlamaCppConfigurationError "Timeout must be a positive number"), s)
    else if 600000 <? z
    then (Throw (new_LlamaCppConfigurationError
                   "Timeout cannot exceed 600000ms (10 minutes)"), s)
    else (Return tt,
          with_heap (<[this_config (this s) :=
                         set_timeout (JNum (Num z)) (config_of s)]> (heap s)) s).
Proof.
  unfold setTimeout, le_zero, gt_600000. simpl.
  destruct (z <=? 0); [reflexivity|]. destruct (600000 <? z); reflexivity.
Qed.

(** C3.  The constructor takes a timeout above 600000 ms and stores it;
    only [setTimeout] has the cap. *)
Theorem constructor_accepts_timeout_above_cap :
  let config := set_timeout (JNum (Num 700000)) empty_config in
  let result := constructor (Some 1%nat) (Scenario.store_of config) in
  (exists a, fst result = Return a /\ this_config a = 1%nat)
  /\ timeout (snd result !!! 1%nat) = JNum (Num 700000)
  /\ forall s, fst (setTimeout (JNum (Num 700000)) s)
               = Throw (new_LlamaCppConfigurationError
                          "Timeout cannot exceed 600000ms (10 minutes)").
Proof.
  cbv zeta. split; [|split].
  - unfold constructor, Scenario.store_of. simpl.
    rewrite lookup_total_singleton_eq. simpl. eauto.
  - unfold constructor, Scenario.store_of. simpl.
    rewrite lookup_total_singleton_eq. simpl.
    rewrite lookup_total_insert_eq. reflexivity.
  - intros s. rewrite setTimeout_number. reflexivity.
Qed.

(** *** Detection happens once *)

Lemma detection_count_app l1 l2 :
  detection_count (l1 ++ l2) = (detection_count l1 + detection_count l2)%nat.
Proof. unfold detection_count. rewrite filter_app, length_app. reflexivity. Qed.

Lemma detection_count_singleton r :
  detection_count [r] = if is_detection r then 1%nat else 0%nat.
Proof.
  unfold detection_count. rewrite filter_cons.
  destruct (is_detection r); destruct (decide _); try congruence; reflexivity.
Qed.


Lemma run_call_state c s :
  snd (run_call c s)
  = match c with
    | CallEmbed text => snd (embed text s)
    | CallEmbedBatch texts => snd (embedBatch texts s)
    end.
Proof.
  destruct c as [t | ts]; unfold run_call; unfold_monad.
  - destruct (embed t s) as [[v|e] s']; reflexivity.
  - destruct (embedBatch ts s) as [[v|e] s']; reflexivity.
Qed.






(** *** setModel *)

Lemma config_of_model_set name s :
  config_of (model_set name s) = set_model (JStr name) (config_of s).
Proof. unfold config_of at 1, model_set. simpl. apply lookup_total_insert_eq. Qed.

Lemma trim_nonempty name : trim name <> "" -> name <> "".
Proof. intros H ->. apply H. reflexivity. Qed.




(** *** embedBatch is all or nothing *)

Lemma embedBatch_item_valid dimension item index :
  valid_item item = true ->
  embedBatch_item dimension item index = Return (item_vector dimension item).
Proof.
  unfold valid_item, embedBatch_item. intros H.
  apply andb_true_iff in H as [H1 H2].
  apply negb_true_iff in H1, H2. rewrite H1, H2. reflexivity.
Qed.

Lemma embedBatch_item_invalid dimension item index :
  valid_item item = false ->
  exists what,
    embedBatch_item dimension item index
    = Throw (new_LlamaCppNetworkError (what +:+ pretty index) None).
Proof.
  unfold valid_item, embedBatch_item. intros H.
  destruct (not_an_object item); [eauto|].
  destruct (not_an_array _); [eauto | discriminate H].
Qed.

Lemma Array_map_indexed_valid dimension items index :
  Forall (fun item => valid_item item = true) items ->
  Array_map_indexed (embedBatch_item dimension) index items
  = Return (map (item_vector dimension) items).
Proof.
  intros H. revert index. induction H as [|item items Hitem _ IH]; intros index;
    [reflexivity|].
  simpl. rewrite (embedBatch_item_valid _ _ _ Hitem), IH. reflexivity.
Qed.

(** The first invalid element ends the [map], with its own index. *)
Lemma Array_map_indexed_invalid dimension items index i item :
  items !! i = Some item ->
  valid_item item = false ->
  Forall (fun item => valid_item item = true) (take i items) ->
  exists what,
    Array_map_indexed (embedBatch_item dimension) index items
    = Throw (new_LlamaCppNetworkError (what +:+ pretty (index + i)%nat) None).
Proof.
  revert index i. induction items as [|x items IH]; intros index i Hi Hbad Hgood;
    [discriminate Hi|].
  destruct i as [|i]; simpl in *.
  - injection Hi as ->.
    destruct (embedBatch_item_invalid dimension item index Hbad) as [what Hw].
    exists what. rewrite Hw. rewrite Nat.add_0_r. reflexivity.
  - apply Forall_cons in Hgood as [Hx Hgood].
    rewrite (embedBatch_item_valid _ _ _ Hx).
    destruct (IH (S index) i Hi Hbad Hgood) as [what Hw].
    exists what. rewrite Hw. replace (index + S i)%nat with (S index + i)%nat by lia.
    reflexivity.
Qed.

Lemma first_invalid items :
  Exists (fun item => valid_item item = false) items ->
  exists i item,
    items !! i = Some item
    /\ valid_item item = false
    /\ Forall (fun item => valid_item item = true) (take i items).
Proof.
  induction items as [|x items IH]; intros H; [inversion H|].
  destruct (valid_item x) eqn:Hx.
  - apply Exists_cons in H as [H|H]; [congruence|].
    destruct (IH H) as (i & item & Hi & Hbad & Hgood).
    exists (S i), item. simpl. auto.
  - exists 0%nat, x. simpl. auto.
Qed.

Lemma embedBatch_response_run response items s :
  not_an_object response = false ->
  get_prop response "data" = JArr items ->
  items <> [] ->
  embedBatch_response response s
  = (Array_map_indexed (embedBatch_item (this_dimension (this s))) 0 items, s).
Proof.
  intros Hobj Hdata Hne. unfold embedBatch_response. rewrite Hobj, Hdata. simpl.
  destruct items; [contradiction|]. reflexivity.
Qed.

(** C6.  When the server's answer to [embedBatch] has elements: if one of
    them is not an object or has no embedding array, the call throws a
    NetworkError whose message ends with the index of the first such
    element, and no vector is returned; otherwise the call returns one
    vector per element, in the order of the response. *)
Theorem embedBatch_all_or_nothing (s s1 : State) (texts response : jsval)
    (items : list jsval) :
  embedBatch_request texts s = (Return response, s1) ->
  not_an_object response = false ->
  get_prop response "data" = JArr items ->
  items <> [] ->
  (Forall (fun item => valid_item item = true) items ->
   embedBatch texts s
   = (Return (map (item_vector (this_dimension (this s1))) items), s1))
  /\ (forall i item,
        items !! i = Some item ->
        valid_item item = false ->
        Forall (fun item => valid_item item = true) (take i items) ->
        exists what,
          embedBatch texts s
          = (Throw (new_LlamaCppNetworkError (what +:+ pretty i) None), s1))
  /\ (Exists (fun item => valid_item item = false) items ->
      exists i item what,
        items !! i = Some item
        /\ valid_item item = false
        /\ embedBatch texts s
           = (Throw (new_LlamaCppNetworkError (what +:+ pretty i) None), s1)).
Proof.
  intros Hreq Hobj Hdata Hne.
  assert (Hrun : embedBatch texts s
                 = (Array_map_indexed (embedBatch_item (this_dimension (this s1))) 0 items,
                    s1)).
  { unfold embedBatch, bind. rewrite Hreq.
    apply embedBatch_response_run; assumption. }
  rewrite Hrun. split; [|split].
  - intros Hall. rewrite (Array_map_indexed_valid _ _ _ Hall). reflexivity.
  - intros i item Hi Hbad Hgood.
    destruct (Array_map_indexed_invalid (this_dimension (this s1)) items 0 i item
                Hi Hbad Hgood) as [what Hw].
    exists what. rewrite Hw. reflexivity.
  - intros Hex. destruct (first_invalid items Hex) as (i & item & Hi & Hbad & Hgood).
    destruct (Array_map_indexed_invalid (this_dimension (this s1)) items 0 i item
                Hi Hbad Hgood) as [what Hw].
    exists i, item, what. rewrite Hw. auto.
Qed.

(** *** Errors pass through the catch blocks *)

(** C7.  A failure raised inside the [try] block of [makeRequest] or of
    [detectDimension] that is a ConfigurationError or a NetworkError leaves
    the method as the same value; any other failure leaves it wrapped in a
    new NetworkError, which keeps the failure as its original error when
    that is an [Error]. *)
Theorem errors_pass_through (s : State) (caller : Caller) (url : string)
    (input m : jsval) (testText : string) (e : thrown) :
  (fst (makeRequest_try (js_or (timeout (config_of s)) (JNum (Num 30000)))
          caller url input m s) = Throw e ->
   if is_NetworkError e || is_ConfigurationError e
   then fst (makeRequest caller url input m s) = Throw e
   else exists message,
          fst (makeRequest caller url input m s)
          = Throw (new_LlamaCppNetworkError message (as_Error e)))
  /\ (fst (detectDimension_try testText s) = Throw e ->
      if is_NetworkError e || is_ConfigurationError e
      then fst (detectDimension (JStr testText) s) = Throw e
      else exists message,
             fst (detectDimension (JStr testText) s)
             = Throw (new_LlamaCppNetworkError message (as_Error e))).
Proof.
  split.
  - unfold makeRequest. unfold bind, get_config, try_catch.
    destruct (makeRequest_try _ _ _ _ _ s) as [[j|e'] s']; simpl; [discriminate|].
    intros H. injection H as ->. unfold makeRequest_catch, as_Error.
    destruct (is_NetworkError e || is_ConfigurationError e); [reflexivity|].
    unfold_monad. destruct (is_Error e); [|eauto].
    destruct (String.eqb _ _); [eauto|]. destruct (_ && _); eauto.
  - unfold detectDimension. cbn [is_undefined]. unfold try_catch.
    destruct (detectDimension_try testText s) as [[d|e'] s']; simpl; [discriminate|].
    intros H. injection H as ->. unfold detectDimension_catch.
    destruct (is_NetworkError e || is_ConfigurationError e); [reflexivity|].
    unfold_monad. eauto.
Qed.

(** *** The configuration object is shared with the caller *)

Lemma constructor_Return l h a :
  fst (constructor (Some l) h) = Return a ->
  this_config a = l
  /\ this_codePrefix a = DEFAULT_CODE_PREFIX
  /\ this_dimensionDetected a = truthy (dimension (h !!! l))
  /\ snd (constructor (Some l) h)
     = if is_undefined (codePrefix (h !!! l))
       then <[l := set_codePrefix (JBool true) (h !!! l)]> h
       else h.
Proof.
  unfold constructor. cbn [fmap option_fmap option_map].
  destruct (validateConfig (Some (h !!! l))); simpl; [|discriminate].
  unfold constructor_dimension, constructor_maxTokens.
  destruct (truthy (dimension (h !!! l))); simpl.
  - destruct (le_zero (dimension (h !!! l))); simpl; [discriminate|].
    destruct (truthy (maxTokens (h !!! l))); simpl;
      [destruct (le_zero (maxTokens (h !!! l))); simpl; [discriminate|]|];
      destruct (is_undefined _); simpl; intros H; injection H as <-; auto.
  - destruct (truthy (maxTokens (h !!! l))); simpl;
      [destruct (le_zero (maxTokens (h !!! l))); simpl; [discriminate|]|];
      destruct (is_undefined _); simpl; intros H; injection H as <-; auto.
Qed.

(** The object the adapter was built on is in the store. *)
Lemma constructor_allocated l h a :
  fst (constructor (Some l) h) = Return a ->
  is_Some (snd (constructor (Some l) h) !! this_config a).
Proof.
  intros Hret. destruct (constructor_Return l h a Hret) as (-> & _ & _ & ->).
  destruct (is_undefined (codePrefix (h !!! l))) eqn:Hu.
  - rewrite lookup_insert_eq. eauto.
  - destruct (h !! l) as [config|] eqn:Hl; [eauto|].
    rewrite lookup_total_alt, Hl in Hu. discriminate Hu.
Qed.

(** C9.  The constructor keeps the caller's configuration object itself,
    and where that object has no [codePrefix] it writes [true] into it.
    What the caller writes into the object afterwards the adapter reads:
    after [codePrefix = false] a text is sent without the prefix. *)
Theorem constructor_shares_config (h : store) (l : loc) (a : LlamaCppEmbedding) :
  fst (constructor (Some l) h) = Return a ->
  codePrefix (h !!! l) = JUndefined ->
  let h' := snd (constructor (Some l) h) in
  this_config a = l
  /\ h' = <[l := set_codePrefix (JBool true) (h !!! l)]> h
  /\ codePrefix (h' !!! l) = JBool true
  /\ forall requests text p,
       preprocessText (this_maxTokens a) text = Return p ->
       startsWith p DEFAULT_CODE_PREFIX = false ->
       let s := {| this := a; heap := h'; net := requests |} in
       let s_mutated :=
         with_heap (<[l := set_codePrefix (JBool false) (h' !!! l)]> h') s in
       fst (preprocessTextForCode (JStr text) s)
       = Return (DEFAULT_CODE_PREFIX +:+ " " +:+ p)
       /\ fst (preprocessTextForCode (JStr text) s_mutated) = Return p.
Proof.
  intros Hret Hundef h'.
  destruct (constructor_Return l h a Hret) as (Hl & Hprefix & _ & Hh).
  rewrite Hundef in Hh. simpl in Hh. fold h' in Hh.
  split; [exact Hl|]. split; [exact Hh|].
  assert (Hcp : codePrefix (h' !!! l) = JBool true).
  { rewrite Hh, lookup_total_insert_eq. reflexivity. }
  split; [exact Hcp|].
  intros requests text p Hp Hstart s s_mutated. split.
  - rewrite (preprocessTextForCode_string text s p Hp).
    unfold config_of. cbn [this heap s]. rewrite Hl, Hcp. cbn [fst truthy].
    unfold with_code_prefix. rewrite Hprefix, Hstart. reflexivity.
  - rewrite (preprocessTextForCode_string text s_mutated p Hp).
    unfold config_of. cbn [this heap s_mutated s with_heap]. rewrite Hl.
    rewrite lookup_total_insert_eq. reflexivity.
Qed.

(** *** Two default model names *)



(** *** getConfig hands out a copy *)

Section Frames.

Variable l : loc.
Variable c : LlamaCppEmbeddingConfig.

Lemma frames_ret {A} (a : A) : frames l c (ret a).
Proof. intros s Hl Hne. auto. Qed.

Lemma frames_throw {A} (e : thrown) : frames l c (@throw A e).
Proof. intros s Hl Hne. auto. Qed.

Lemma frames_lift {A} (o : Outcome A) : frames l c (lift o).
Proof. intros s Hl Hne. auto. Qed.

Lemma frames_bind {A B} (m : M A) (k : A -> M B) :
  frames l c m -> (forall a, frames l c (k a)) -> frames l c (bind m k).
Proof.
  intros Hm Hk s Hl Hne. unfold bind.
  destruct (Hm s Hl Hne) as (Heq & Hl1 & Hc1). rewrite Heq.
  destruct (m s) as [[a|e] s1]; simpl in *; [|auto].
  destruct (Hk a s1 Hl1) as (Heq2 & Hl2 & Hc2); [congruence|].
  rewrite Heq2. split; [reflexivity|]. split; [assumption | congruence].
Qed.

Lemma frames_try_catch {A} (body : M A) (handler : thrown -> M A) :
  frames l c body -> (forall e, frames l c (handler e)) ->
  frames l c (try_catch body handler).
Proof.
  intros Hm Hk s Hl Hne. unfold try_catch.
  destruct (Hm s Hl Hne) as (Heq & Hl1 & Hc1). rewrite Heq.
  destruct (body s) as [[a|e] s1]; simpl in *; [auto|].
  destruct (Hk e s1 Hl1) as (Heq2 & Hl2 & Hc2); [congruence|].
  rewrite Heq2. split; [reflexivity|]. split; [assumption | congruence].
Qed.

Lemma frames_get_this : frames l c get_this.
Proof. intros s Hl Hne. auto. Qed.

Lemma frames_update_this f :
  (forall a, this_config (f a) = this_config a) -> frames l c (update_this f).
Proof. intros Hf s Hl Hne. unfold update_this. simpl. auto. Qed.

Lemma config_of_mutate s :
  l <> this_config (this s) -> config_of (mutate l c s) = config_of s.
Proof. intros Hne. unfold config_of, mutate. simpl. apply lookup_total_insert_ne, Hne. Qed.

Lemma frames_get_config : frames l c get_config.
Proof.
  intros s Hl Hne. unfold get_config. rewrite (config_of_mutate s Hne). auto.
Qed.

Lemma frames_update_config f : frames l c (update_config f).
Proof.
  intros s Hl Hne. unfold update_config. rewrite (config_of_mutate s Hne). simpl.
  split; [|split; [|reflexivity]].
  - unfold mutate, with_heap. simpl. f_equal. f_equal.
    apply insert_insert_ne. auto.
  - apply lookup_insert_is_Some'. auto.
Qed.

Lemma frames_do_fetch r : frames l c (do_fetch r).
Proof. intros s Hl Hne. unfold do_fetch. simpl. auto. Qed.

Lemma frames_getConfig : frames l c getConfig.
Proof.
  intros s Hl Hne. unfold getConfig. rewrite (config_of_mutate s Hne).
  cbn [fst snd this heap mutate with_heap].
  rewrite (dom_insert_lookup_L (heap s) l c Hl).
  assert (Hfresh : fresh (dom (heap s)) <> l).
  { intros Heq. pose proof (is_fresh (dom (heap s))) as Hf.
    rewrite Heq in Hf. apply Hf, elem_of_dom, Hl. }
  split; [|split; [|reflexivity]].
  - f_equal. unfold mutate, with_heap. simpl. f_equal.
    apply insert_insert_ne. exact Hfresh.
  - apply lookup_insert_is_Some'. auto.
Qed.

#[local] Hint Resolve frames_ret frames_throw frames_lift frames_get_this
  frames_get_config frames_update_config frames_do_fetch frames_getConfig : frames.
#[local] Hint Extern 1 (frames _ _ (update_this _)) =>
  apply frames_update_this; intros; reflexivity : frames.

(** One step through a method body. *)
Ltac frames_step :=
  cbv zeta;
  match goal with
  | |- frames _ _ (bind _ _) => apply frames_bind; [|intros ?]
  | |- frames _ _ (try_catch _ _) => apply frames_try_catch; [|intros ?]
  | |- frames _ _ (if ?b then _ else _) => destruct b
  | |- frames _ _ (match ?x with _ => _ end) => destruct x
  | |- frames _ _ _ => solve [auto with frames]
  end.

Lemma frames_makeRequest caller url input m :
  frames l c (makeRequest caller url input m).
Proof.
  unfold makeRequest, makeRequest_try, makeRequest_catch. repeat frames_step.
Qed.
#[local] Hint Resolve frames_makeRequest : frames.

Lemma frames_preprocessTextForCode text : frames l c (preprocessTextForCode text).
Proof. unfold preprocessTextForCode. repeat frames_step. Qed.
#[local] Hint Resolve frames_preprocessTextForCode : frames.

Lemma frames_Array_map_preprocess texts :
  frames l c (Array_map preprocessTextForCode texts).
Proof.
  induction texts as [|t texts IH]; simpl; [apply frames_ret|].
  repeat frames_step.
Qed.
#[local] Hint Resolve frames_Array_map_preprocess : frames.

Lemma frames_detectDimension testText : frames l c (detectDimension testText).
Proof.
  unfold detectDimension, detectDimension_try, detectDimension_catch.
  repeat frames_step.
Qed.
#[local] Hint Resolve frames_detectDimension : frames.

Lemma frames_ensureDimensionDetected : frames l c ensureDimensionDetected.
Proof. unfold ensureDimensionDetected. repeat frames_step. Qed.
#[local] Hint Resolve frames_ensureDimensionDetected : frames.

Lemma frames_embed text : frames l c (embed text).
Proof. unfold embed. repeat frames_step. Qed.

Lemma frames_embedBatch texts : frames l c (embedBatch texts).
Proof.
  unfold embedBatch, embedBatch_request, embedBatch_response. repeat frames_step.
Qed.

Lemma frames_setHost host : frames l c (setHost host).
Proof. unfold setHost. repeat frames_step. Qed.

Lemma frames_setModel model : frames l c (setModel model).
Proof. unfold setModel. repeat frames_step. Qed.

Lemma frames_setCodePrefix enabled : frames l c (setCodePrefix enabled).
Proof. unfold setCodePrefix. repeat frames_step. Qed.

Lemma frames_setCustomCodePrefix prefix : frames l c (setCustomCodePrefix prefix).
Proof. unfold setCustomCodePrefix. repeat frames_step. Qed.

Lemma frames_setTimeout timeout : frames l c (setTimeout timeout).
Proof. unfold setTimeout. repeat frames_step. Qed.

Lemma frames_run_operation op : frames l c (run_operation op).
Proof.
  pose proof frames_embed. pose proof frames_embedBatch. pose proof frames_setHost.
  pose proof frames_setModel. pose proof frames_setCodePrefix.
  pose proof frames_setCustomCodePrefix. pose proof frames_setTimeout.
  destruct op; unfold run_operation, getDimension, getModel; repeat frames_step.
Qed.

Lemma frames_run_operations ops s :
  is_Some (heap s !! l) ->
  l <> this_config (this s) ->
  run_operations ops (mutate l c s)
  = (fst (run_operations ops s), mutate l c (snd (run_operations ops s))).
Proof.
  revert s. induction ops as [|op ops IH]; intros s Hl Hne; [reflexivity|].
  simpl. destruct (frames_run_operation op s Hl Hne) as (Heq & Hl1 & Hc1).
  rewrite Heq. destruct (run_operation op s) as [o s1]; simpl in *.
  rewrite IH; [|assumption|congruence].
  destruct (run_operations ops s1) as [os s2]. reflexivity.
Qed.

End Frames.

(** C8.  [getConfig] returns a new object that holds the configuration's
    fields: it is not the adapter's own object, and whatever the caller
    writes into it, the adapter's configuration is as before and every
    later sequence of operations returns the same and leaves the same
    state. *)
Theorem getConfig_returns_copy (s : State) (c : LlamaCppEmbeddingConfig)
    (ops : list Operation) :
  is_Some (heap s !! this_config (this s)) ->
  let l := fresh (dom (heap s)) in
  let s1 := snd (getConfig s) in
  fst (getConfig s) = Return l
  /\ l <> this_config (this s1)
  /\ heap s1 !!! l = config_of s
  /\ this s1 = this s
  /\ config_of s1 = config_of s
  /\ config_of (mutate l c s1) = config_of s1
  /\ run_operations ops (mutate l c s1)
     = (fst (run_operations ops s1), mutate l c (snd (run_operations ops s1))).
Proof.
  intros Halloc l s1.
  assert (Hne : l <> this_config (this s)).
  { intros Heq. pose proof (is_fresh (dom (heap s))) as Hf. fold l in Hf.
    rewrite Heq in Hf. apply Hf, elem_of_dom, Halloc. }
  assert (Hl : is_Some (heap s1 !! l)).
  { subst s1. unfold getConfig. simpl. fold l. rewrite lookup_insert_eq. eauto. }
  split; [reflexivity|]. split; [exact Hne|]. split.
  { subst s1. unfold getConfig. simpl. fold l. apply lookup_total_insert_eq. }
  split; [reflexivity|]. split.
  { subst s1. unfold getConfig, config_of at 1. simpl. fold l.
    rewrite lookup_total_insert_ne by exact Hne. reflexivity. }
  split.
  - apply config_of_mutate. exact Hne.
  - apply frames_run_operations; assumption.
Qed.

End Properties.

(** ** The properties at work *)

Section Witnesses.

Import Scenario.

Lemma code_prefix_sent_witness :
  truthy (codePrefix (config_of fresh_adapter)) = true
  /\ preprocessTextForCode (env := env_ok) (JStr "foo") fresh_adapter
     = (Return "Represent this query for searching relevant code: foo", fresh_adapter)
  /\ exists r,
       net (snd (embed (env := env_ok) (JStr "foo") fixed_adapter))
       = net fixed_adapter ++ [r]
       /\ req_caller r = ByEmbed
       /\ req_input r = JStr "Represent this query for searching relevant code: foo".
Proof.
  assert (Hon : truthy (codePrefix (config_of fresh_adapter)) = true) by reflexivity.
  split; [exact Hon|].
  assert (Hhook : Forall2 (fun text p =>
                             preprocessText (Environment := env_ok)
                               (this_maxTokens (this fresh_adapter)) text = Return p)
                    ["foo"] ["foo"]).
  { repeat constructor. }
  split.
  - destruct (code_prefix_sent (env := env_ok) fresh_adapter ["foo"] ["foo"] Hon Hhook)
      as [H _].
    apply Forall2_cons_1 in H as [[H _] _]. exact H.
  - assert (Hon' : truthy (codePrefix (config_of fixed_adapter)) = true) by reflexivity.
    destruct (code_prefix_sent (env := env_ok) fixed_adapter ["foo"] ["foo"] Hon' Hhook)
      as [H _].
    apply Forall2_cons_1 in H as [(_ & H & _) _].
    exact (H fixed_adapter eq_refl).
Defined.

(** The claim C1 as it was worded, with the caller's text in the place of
    the preprocessed one, fails on the empty text: the hook hands back one
    space, so what goes out is the prefix and two spaces. *)
Lemma code_prefix_original_text_counterexample :
  truthy (codePrefix (config_of fresh_adapter)) = true
  /\ startsWith "" (this_codePrefix (this fresh_adapter)) = false
  /\ map req_input (net (snd (embed (env := env_blank) (JStr "") fresh_adapter)))
     = [JStr "test"; JStr "Represent this query for searching relevant code:  "]
  /\ fst (preprocessTextForCode (env := env_blank) (JStr "") fresh_adapter)
     <> Return (with_code_prefix (this_codePrefix (this fresh_adapter)) "")
  /\ fst (preprocessTextForCode (env := env_blank) (JStr "") fresh_adapter)
     <> Return "".
Proof.
  split; [reflexivity|]. split; [reflexivity|].
  split; [vm_compute; reflexivity|].
  split; vm_compute; discriminate.
Qed.




Lemma embedBatch_all_or_nothing_witness :
  embedBatch_request (env := env_hole) (JArr [JStr "a"; JStr "b"; JStr "c"]) fresh_adapter
  = (Return (JObj [("data", JArr [embedding3; JNull; embedding3])]),
     snd (embedBatch_request (env := env_hole) (JArr [JStr "a"; JStr "b"; JStr "c"])
            fresh_adapter))
  /\ valid_item JNull = false
  /\ exists what,
       embedBatch (env := env_hole) (JArr [JStr "a"; JStr "b"; JStr "c"]) fresh_adapter
       = (Throw (new_LlamaCppNetworkError (what +:+ "1") None),
          snd (embedBatch_request (env := env_hole) (JArr [JStr "a"; JStr "b"; JStr "c"])
                 fresh_adapter)).
Proof.
  assert (H1 : embedBatch_request (env := env_hole) (JArr [JStr "a"; JStr "b"; JStr "c"])
                 fresh_adapter
               = (Return (JObj [("data", JArr [embedding3; JNull; embedding3])]),
                  snd (embedBatch_request (env := env_hole)
                         (JArr [JStr "a"; JStr "b"; JStr "c"]) fresh_adapter)))
    by (vm_compute; reflexivity).
  split; [exact H1|]. split; [reflexivity|].
  assert (H2 : not_an_object (JObj [("data", JArr [embedding3; JNull; embedding3])]) = false)
    by reflexivity.
  assert (H3 : get_prop (JObj [("data", JArr [embedding3; JNull; embedding3])]) "data"
               = JArr [embedding3; JNull; embedding3]) by reflexivity.
  assert (H4 : [embedding3; JNull; embedding3] <> []) by discriminate.
  destruct (embedBatch_all_or_nothing (env := env_hole) _ _ _ _ _ H1 H2 H3 H4)
    as (_ & Hbad & _).
  apply (Hbad 1%nat JNull); [reflexivity | reflexivity |].
  repeat constructor.
Defined.

Lemma errors_pass_through_witness :
  fst (makeRequest_try (env := env_abort)
         (js_or (timeout (config_of fresh_adapter)) (JNum (Num 30000)))
         ByEmbed "http://localhost:8080/v1/embeddings" (JStr "foo")
         (JStr "embedding-model") fresh_adapter)
  = Throw abort_error
  /\ (exists message,
        fst (makeRequest (env := env_abort) ByEmbed "http://localhost:8080/v1/embeddings"
               (JStr "foo") (JStr "embedding-model") fresh_adapter)
        = Throw (new_LlamaCppNetworkError message (Some abort_error)))
  /\ fst (detectDimension_try (env := env_abort) "test" fresh_adapter)
     = Throw (new_LlamaCppNetworkError
                "Request timeout after 30000ms - server at http://localhost:8080 not responding"
                (Some abort_error))
  /\ fst (detectDimension (env := env_abort) (JStr "test") fresh_adapter)
     = Throw (new_LlamaCppNetworkError
                "Request timeout after 30000ms - server at http://localhost:8080 not responding"
                (Some abort_error))
  /\ fst (detectDimension_try (env := env_no_hook) "test" fresh_adapter)
     = Throw (OtherError "RangeError" "text too long")
  /\ exists message,
       fst (detectDimension (env := env_no_hook) (JStr "test") fresh_adapter)
       = Throw (new_LlamaCppNetworkError message
                  (Some (OtherError "RangeError" "text too long"))).
Proof.
  assert (H1 : fst (makeRequest_try (env := env_abort)
                      (js_or (timeout (config_of fresh_adapter)) (JNum (Num 30000)))
                      ByEmbed "http://localhost:8080/v1/embeddings" (JStr "foo")
                      (JStr "embedding-model") fresh_adapter)
               = Throw abort_error) by reflexivity.
  assert (H2 : fst (detectDimension_try (env := env_abort) "test" fresh_adapter)
               = Throw (new_LlamaCppNetworkError
                          "Request timeout after 30000ms - server at http://localhost:8080 not responding"
                          (Some abort_error))) by (vm_compute; reflexivity).
  assert (H3 : fst (detectDimension_try (env := env_no_hook) "test" fresh_adapter)
               = Throw (OtherError "RangeError" "text too long")) by reflexivity.
  split; [exact H1|]. split; [|split; [exact H2|split; [|split; [exact H3|]]]].
  - exact (proj1 (errors_pass_through (env := env_abort) fresh_adapter ByEmbed
                    "http://localhost:8080/v1/embeddings" (JStr "foo")
                    (JStr "embedding-model") "test" abort_error) H1).
  - exact (proj2 (errors_pass_through (env := env_abort) fresh_adapter ByEmbed
                    "http://localhost:8080/v1/embeddings" (JStr "foo")
                    (JStr "embedding-model") "test" _) H2).
  - exact (proj2 (errors_pass_through (env := env_no_hook) fresh_adapter ByEmbed
                    "http://localhost:8080/v1/embeddings" (JStr "foo")
                    (JStr "embedding-model") "test" _) H3).
Defined.

Lemma getConfig_returns_copy_witness :
  is_Some (heap fresh_adapter !! this_config (this fresh_adapter))
  /\ run_operations (env := env_ok) [OpEmbed (JStr "foo"); OpGetModel; OpGetConfig]
       (mutate (fresh (dom (heap fresh_adapter)))
          (set_codePrefix (JBool false) (set_model (JStr "other") empty_config))
          (snd (getConfig fresh_adapter)))
     = (fst (run_operations (env := env_ok) [OpEmbed (JStr "foo"); OpGetModel; OpGetConfig]
               (snd (getConfig fresh_adapter))),
        mutate (fresh (dom (heap fresh_adapter)))
          (set_codePrefix (JBool false) (set_model (JStr "other") empty_config))
          (snd (run_operations (env := env_ok)
                  [OpEmbed (JStr "foo"); OpGetModel; OpGetConfig]
                  (snd (getConfig fresh_adapter))))).
Proof.
  assert (H1 : is_Some (heap fresh_adapter !! this_config (this fresh_adapter))).
  { exists (set_codePrefix (JBool true) empty_config). reflexivity. }
  split; [exact H1|].
  exact (proj2 (proj2 (proj2 (proj2 (proj2 (proj2
           (getConfig_returns_copy (env := env_ok) fresh_adapter
              (set_codePrefix (JBool false) (set_model (JStr "other") empty_config))
              [OpEmbed (JStr "foo"); OpGetModel; OpGetConfig] H1))))))).
Defined.

Lemma constructor_shares_config_witness :
  fst (constructor (env := env_ok) (Some 1%nat) (store_of empty_config))
  = Return (this fresh_adapter)
  /\ codePrefix (store_of empty_config !!! 1%nat) = JUndefined
  /\ codePrefix (snd (constructor (env := env_ok) (Some 1%nat) (store_of empty_config))
                   !!! 1%nat) = JBool true.
Proof.
  assert (H1 : fst (constructor (env := env_ok) (Some 1%nat) (store_of empty_config))
               = Return (this fresh_adapter)) by (vm_compute; reflexivity).
  assert (H2 : codePrefix (store_of empty_config !!! 1%nat) = JUndefined) by reflexivity.
  split; [exact H1|]. split; [exact H2|].
  exact (proj1 (proj2 (proj2
           (constructor_shares_config (env := env_ok) _ _ _ H1 H2)))).
Defined.


End Witnesses.

(** ** Further properties of the adapter *)

Section Construction.

Context {env : Environment}.

Lemma validateHostUrl_Throw host e :
  validateHostUrl host = Throw e -> is_ConfigurationError e = true.
Proof.
  unfold validateHostUrl. destruct (URL_protocol host) as [protocol|].
  - destruct (existsb _ _); [discriminate|]. intros H. injection H as <-. reflexivity.
  - intros H. injection H as <-. reflexivity.
Qed.

Lemma validateConfig_Throw config e :
  validateConfig config = Throw e -> is_ConfigurationError e = true.
Proof.
  unfold validateConfig. destruct config as [config|].
  - destruct (_ && _); [intros H; injection H as <-; reflexivity|].
    destruct (_ && _); [intros H; injection H as <-; reflexivity|].
    destruct (_ && _); [intros H; injection H as <-; reflexivity|].
    destruct (host config); try discriminate.
    destruct (truthy _); [apply validateHostUrl_Throw | discriminate].
  - intros H. injection H as <-. reflexivity.
Qed.

Lemma ConfigurationError_message e :
  is_ConfigurationError e = true -> exists message, e = LlamaCppConfigurationError message.
Proof. destruct e; try discriminate. eauto. Qed.

(** X1.  A missing configuration object, a negative integer dimension
    override and a negative integer max-token override each make the
    constructor throw a ConfigurationError, before it has written anything
    to the caller's object. *)
Theorem constructor_rejects_negative_overrides (l : loc) (h : store) :
  constructor None h
  = (Throw (new_LlamaCppConfigurationError "Configuration object is required"), h)
  /\ ((exists z, z < 0 /\ (dimension (h !!! l) = JNum (Num z)
                          \/ maxTokens (h !!! l) = JNum (Num z))) ->
      exists message,
        constructor (Some l) h = (Throw (LlamaCppConfigurationError message), h)).
Proof.
  split; [reflexivity|]. intros (z & Hz & Hfield).
  assert (Hneg : truthy (JNum (Num z)) = true /\ le_zero (JNum (Num z)) = true).
  { unfold le_zero. simpl. split.
    - destruct (Z.eqb_spec z 0); [lia | reflexivity].
    - apply Z.leb_le. lia. }
  destruct Hneg as [Htruthy Hle].
  unfold constructor. cbn [fmap option_fmap option_map].
  destruct (validateConfig (Some (h !!! l))) as [[]|e] eqn:Hv.
  - unfold constructor_dimension, constructor_maxTokens.
    destruct Hfield as [Hd | Hm].
    + rewrite Hd, Htruthy, Hle. eauto.
    + rewrite Hm, Htruthy, Hle.
      destruct (truthy (dimension (h !!! l)));
        [destruct (le_zero (dimension (h !!! l)))|]; eauto.
  - destruct (ConfigurationError_message e (validateConfig_Throw _ _ Hv)) as [message ->].
    eauto.
Qed.

(** X2.  A timeout that is present and is not a positive number makes the
    constructor throw a ConfigurationError. *)
Theorem constructor_rejects_bad_timeout (l : loc) (h : store) :
  timeout (h !!! l) <> JUndefined ->
  (forall n, timeout (h !!! l) <> JNum n)
  \/ (exists z, timeout (h !!! l) = JNum (Num z) /\ z <= 0) ->
  exists message,
    constructor (Some l) h = (Throw (LlamaCppConfigurationError message), h).
Proof.
  intros Hpresent Hbad.
  assert (Hcheck : negb (is_undefined (timeout (h !!! l)))
                   && (negb (String.eqb (typeof (timeout (h !!! l))) "number")
                       || le_zero (timeout (h !!! l))) = true).
  { destruct Hbad as [Hnot | (z & Hz & Hle)].
    - destruct (timeout (h !!! l)) as [| |b|n|t|items|fields];
        try reflexivity; [contradiction | exfalso; exact (Hnot n eq_refl)].
    - rewrite Hz. simpl. unfold le_zero. simpl. apply Z.leb_le. exact Hle. }
  unfold constructor. cbn [fmap option_fmap option_map]. unfold validateConfig.
  destruct (negb (is_undefined (host (h !!! l))) && _); [eauto|].
  destruct (negb (is_undefined (model (h !!! l))) && _); [eauto|].
  rewrite Hcheck. eauto.
Qed.

(** X3.  A host that is a non-empty string and does not parse as an http or https
    URL makes the constructor throw a ConfigurationError. *)
Theorem constructor_rejects_bad_host (l : loc) (h : store) (url : string) :
  host (h !!! l) = JStr url ->
  url <> "" ->
  URL_protocol url = None
  \/ (exists protocol, URL_protocol url = Some protocol
                       /\ protocol <> "http:" /\ protocol <> "https:") ->
  exists message,
    constructor (Some l) h = (Throw (LlamaCppConfigurationError message), h).
Proof.
  intros Hhost Hne Hbad.
  assert (Hurl : exists message,
             validateHostUrl url = Throw (LlamaCppConfigurationError message)).
  { unfold validateHostUrl. destruct Hbad as [-> | (protocol & -> & H1 & H2)]; [eauto|].
    simpl. destruct (String.eqb_spec protocol "http:"); [contradiction|].
    destruct (String.eqb_spec protocol "https:"); [contradiction|]. simpl. eauto. }
  unfold constructor. cbn [fmap option_fmap option_map]. unfold validateConfig.
  rewrite Hhost. simpl.
  destruct (negb (is_undefined (model (h !!! l))) && _); [eauto|].
  destruct (negb (is_undefined (timeout (h !!! l))) && _); [eauto|].
  destruct (String.eqb_spec url ""); [contradiction|]. simpl.
  destruct Hurl as [message ->]. eauto.
Qed.

(** X4.  When the constructor returns, the request host is the configured host
    without one trailing slash, or the default when no host or an empty one
    was given; an integer dimension override other than zero is then
    positive, and is the fixed dimension, while no override, zero and [NaN]
    all leave the dimension at 768 and not detected. *)
Theorem constructor_host_and_dimension (l : loc) (h : store) (a : LlamaCppEmbedding) :
  fst (constructor (Some l) h) = Return a ->
  this_host a = match host (h !!! l) with
                | JStr url => if String.eqb url "" then "http://localhost:8080"
                              else normalizeHost url
                | _ => "http://localhost:8080"
                end
  /\ (host (h !!! l) = JUndefined \/ exists url, host (h !!! l) = JStr url)
  /\ (forall z, dimension (h !!! l) = JNum (Num z) -> z <> 0 ->
                0 < z /\ this_dimension a = JNum (Num z)
                /\ this_dimensionDetected a = true)
  /\ (dimension (h !!! l) = JUndefined \/ dimension (h !!! l) = JNum (Num 0)
      \/ dimension (h !!! l) = JNum NaN ->
      this_dimension a = JNum (Num 768) /\ this_dimensionDetected a = false).
Proof.
  unfold constructor. cbn [fmap option_fmap option_map].
  destruct (validateConfig (Some (h !!! l))) as [[]|e] eqn:Hv; simpl; [|discriminate].
  assert (Hhost : host (h !!! l) = JUndefined \/ exists url, host (h !!! l) = JStr url).
  { unfold validateConfig in Hv.
    destruct (host (h !!! l)); simpl in Hv; try discriminate; eauto. }
  intros Hret.
  assert (Hfields : exists a0,
             constructor_dimension (h !!! l) (initial_fields l (h !!! l)) = Return a0
             /\ this_host a = this_host a0 /\ this_dimension a = this_dimension a0
             /\ this_dimensionDetected a = this_dimensionDetected a0).
  { destruct (constructor_dimension _ _) as [a0|e]; simpl in Hret; [|discriminate].
    exists a0. split; [reflexivity|]. unfold constructor_maxTokens in Hret.
    destruct (truthy (maxTokens (h !!! l))); simpl in Hret;
      [destruct (le_zero (maxTokens (h !!! l))); simpl in Hret; [discriminate|]|];
      destruct (is_undefined _); simpl in Hret; injection Hret as <-; auto. }
  destruct Hfields as (a0 & Hdim & Hh & Hd & Hf).
  split; [|split; [exact Hhost|split]].
  - rewrite Hh. unfold constructor_dimension in Hdim.
    assert (Hinit : this_host a0 = this_host (initial_fields l (h !!! l))).
    { destruct (truthy (dimension (h !!! l)));
        [destruct (le_zero (dimension (h !!! l))); [discriminate|]|];
        injection Hdim as <-; reflexivity. }
    rewrite Hinit. simpl. unfold host_or_default, js_or.
    destruct Hhost as [-> | [url ->]]; [reflexivity|]. simpl.
    destruct (String.eqb url ""); reflexivity.
  - intros z Hz Hnz. rewrite (constructor_dimension_number _ _ z Hz) in Hdim.
    destruct (Z.ltb_spec z 0); [discriminate|].
    destruct (Z.eqb_spec z 0); [contradiction|].
    injection Hdim as <-. rewrite Hd, Hf. split; [lia|]. auto.
  - intros Hnone. unfold constructor_dimension in Hdim.
    assert (Hfalsy : truthy (dimension (h !!! l)) = false).
    { destruct Hnone as [-> | [-> | ->]]; reflexivity. }
    rewrite Hfalsy in Hdim. injection Hdim as <-. rewrite Hd, Hf. auto.
Qed.

End Construction.

Section Mutators.

Context {env : Environment}.

(** X5.  [setHost] with a URL that does not parse, or whose scheme is neither
    http nor https, throws a ConfigurationError and changes nothing. *)
Theorem setHost_rejects_bad_url (s : State) (url : string) :
  URL_protocol url = None
  \/ (exists protocol, URL_protocol url = Some protocol
                       /\ protocol <> "http:" /\ protocol <> "https:") ->
  exists message,
    setHost (JStr url) s = (Throw (LlamaCppConfigurationError message), s).
Proof.
  intros Hbad. unfold setHost, validateHostUrl. unfold_monad.
  destruct Hbad as [-> | (protocol & -> & H1 & H2)]; [eauto|]. simpl.
  destruct (String.eqb_spec protocol "http:"); [contradiction|].
  destruct (String.eqb_spec protocol "https:"); [contradiction|]. simpl. eauto.
Qed.

(** X6.  Each mutator checks its argument before it writes anything: [setHost]
    of a value that is not a string, [setCodePrefix] of a value that is not
    a boolean, [setCustomCodePrefix] and [setModel] of a value that is not a
    string or is blank, and [setTimeout] of a value that is not a number or
    is an integer outside 1..600000, throw a ConfigurationError and leave the
    adapter as it was. *)
Theorem mutators_reject_bad_arguments (s : State) (v : jsval) :
  ((forall url, v <> JStr url) ->
   setHost v s = (Throw (new_LlamaCppConfigurationError "Host must be a string"), s))
  /\ ((forall b, v <> JBool b) ->
      setCodePrefix v s
      = (Throw (new_LlamaCppConfigurationError
                  "Code prefix enabled flag must be a boolean"), s))
  /\ ((forall prefix, v = JStr prefix -> trim prefix = "") ->
      exists message,
        setCustomCodePrefix v s = (Throw (LlamaCppConfigurationError message), s))
  /\ ((forall n, v <> JNum n)
      \/ (exists z, v = JNum (Num z) /\ (z <= 0 \/ 600000 < z)) ->
      exists message,
        setTimeout v s = (Throw (LlamaCppConfigurationError message), s))
  /\ ((forall name, v = JStr name -> trim name = "") ->
      exists message,
        setModel v s = (Throw (LlamaCppConfigurationError message), s)).
Proof.
  split; [|split; [|split; [|split]]].
  - intros Hno. unfold setHost. destruct v; try reflexivity.
    exfalso. exact (Hno s0 eq_refl).
  - intros Hno. unfold setCodePrefix. destruct v; try reflexivity.
    exfalso. exact (Hno b eq_refl).
  - intros Hblank. unfold setCustomCodePrefix. destruct v; eauto.
    rewrite (Hblank s0 eq_refl). simpl. eauto.
  - intros [Hno | (z & -> & Hz)].
    + unfold setTimeout. destruct v; eauto. exfalso. exact (Hno n eq_refl).
    + rewrite setTimeout_number.
      destruct (Z.leb_spec z 0); [eauto|].
      destruct (Z.ltb_spec 600000 z); [eauto | lia].
  - intros Hblank. unfold setModel. destruct v; eauto.
    rewrite (Hblank s0 eq_refl). simpl. eauto.
Qed.

(** X7.  [setTimeout] takes an integer timeout exactly when it lies in
    1..600000; it then stores it, and the requests that follow carry it.
    [NaN], a number too, passes both comparisons and is stored, after which
    requests fall back to 30000. *)
Theorem setTimeout_range (s : State) (z : Z) :
  (fst (setTimeout (JNum (Num z)) s) = Return tt <-> 0 < z <= 600000)
  /\ (0 < z <= 600000 ->
      let s' := snd (setTimeout (JNum (Num z)) s) in
      timeout (config_of s') = JNum (Num z)
      /\ this s' = this s /\ net s' = net s
      /\ forall caller url input m,
           req_timeout (request_of s' caller url input m) = JNum (Num z))
  /\ (let s' := snd (setTimeout (JNum NaN) s) in
      fst (setTimeout (JNum NaN) s) = Return tt
      /\ timeout (config_of s') = JNum NaN
      /\ forall caller url input m,
           req_timeout (request_of s' caller url input m) = JNum (Num 30000)).
Proof.
  rewrite setTimeout_number. split; [|split].
  - destruct (Z.leb_spec z 0); simpl; [split; [discriminate | lia]|].
    destruct (Z.ltb_spec 600000 z); simpl; [split; [discriminate | lia]|].
    split; [lia | reflexivity].
  - intros [Hpos Hcap].
    destruct (Z.leb_spec z 0); [lia|]. destruct (Z.ltb_spec 600000 z); [lia|].
    cbn [snd]. cbv zeta.
    assert (Hcfg : config_of (with_heap (<[this_config (this s) :=
                                 set_timeout (JNum (Num z)) (config_of s)]> (heap s)) s)
                   = set_timeout (JNum (Num z)) (config_of s)).
    { unfold config_of at 1. simpl. apply lookup_total_insert_eq. }
    split; [rewrite Hcfg; reflexivity|]. split; [reflexivity|]. split; [reflexivity|].
    intros caller url input m. unfold request_of. rewrite Hcfg. simpl.
    unfold js_or. simpl. destruct (Z.eqb_spec z 0); [lia | reflexivity].
  - unfold setTimeout. simpl. unfold update_config. cbn [fst snd].
    assert (Hcfg : config_of (with_heap (<[this_config (this s) :=
                                 set_timeout (JNum NaN) (config_of s)]> (heap s)) s)
                   = set_timeout (JNum NaN) (config_of s)).
    { unfold config_of at 1. simpl. apply lookup_total_insert_eq. }
    split; [reflexivity|]. split; [rewrite Hcfg; reflexivity|].
    intros caller url input m. unfold request_of. rewrite Hcfg. reflexivity.
Qed.

(** X8.  [normalizeHost] drops one trailing slash and leaves every other host as
    it is. *)
Theorem normalizeHost_slash (host : string) :
  normalizeHost (host +:+ "/") = host
  /\ ((forall rest, host <> rest +:+ "/") -> normalizeHost host = host).
Proof.
  unfold normalizeHost. split.
  - induction host as [|c host IH]; [reflexivity|].
    change (String c host +:+ "/") with (String c (host +:+ "/")).
    cbn [strip_trailing_slash]. rewrite IH.
    destruct host; reflexivity.
  - induction host as [|c host IH]; intros Hno; [reflexivity|].
    destruct host as [|c' host].
    + simpl. destruct (Ascii.eqb_spec c "/"%char) as [->|]; [|reflexivity].
      exfalso. apply (Hno ""). reflexivity.
    + change (strip_trailing_slash (String c (String c' host)))
        with (String c (strip_trailing_slash (String c' host))).
      rewrite IH; [reflexivity|].
      intros rest Hrest. apply (Hno (String c rest)).
      change (String c rest +:+ "/") with (String c (rest +:+ "/")).
      rewrite Hrest. reflexivity.
Qed.

End Mutators.

Section Calls.

Context {env : Environment}.

(** *** What a call throws *)

Lemma preprocessTextForCode_Throw v s e :
  fst (preprocessTextForCode v s) = Throw e ->
  is_ConfigurationError e = true
  \/ exists t, v = JStr t /\ preprocessText (this_maxTokens (this s)) t = Throw e.
Proof.
  unfold preprocessTextForCode.
  destruct v; try (simpl; intros H; injection H as <-; left; reflexivity).
  unfold_monad. destruct (preprocessText _ _) as [p|e'] eqn:Hp; simpl.
  - destruct (_ && _); discriminate.
  - intros H. injection H as ->. right. eauto.
Qed.

Lemma Array_map_preprocess_Throw items s e :
  fst (Array_map preprocessTextForCode items s) = Throw e ->
  is_ConfigurationError e = true
  \/ exists t, preprocessText (this_maxTokens (this s)) t = Throw e.
Proof.
  induction items as [|v items IH]; [discriminate|].
  cbn [Array_map]. unfold bind at 1.
  pose proof (preprocessTextForCode_state v s) as Hs.
  pose proof (preprocessTextForCode_Throw v s) as Ht.
  destruct (preprocessTextForCode v s) as [[pt|e'] s1]; simpl in Hs, Ht; subst s1.
  - unfold bind at 1.
    destruct (Array_map preprocessTextForCode items s) as [[pts|e'] s2]; simpl in *;
      [discriminate|].
    intros H. injection H as ->. apply IH. reflexivity.
  - simpl. intros H. injection H as ->.
    destruct (Ht e eq_refl) as [Hc | (t & _ & Hh)]; eauto.
Qed.

Lemma detectDimension_Throw testText s e :
  fst (detectDimension testText s) = Throw e ->
  is_NetworkError e || is_ConfigurationError e = true.
Proof.
  unfold detectDimension.
  destruct (if is_undefined testText then JStr "test" else testText);
    try (simpl; intros H; injection H as <-; reflexivity).
  unfold try_catch. destruct (detectDimension_try s0 s) as [[d|e'] s1]; simpl;
    [discriminate|].
  unfold detectDimension_catch.
  destruct (is_NetworkError e' || is_ConfigurationError e') eqn:He'; simpl.
  - intros H. injection H as <-. exact He'.
  - intros H. injection H as <-. reflexivity.
Qed.

Lemma ensureDimensionDetected_Throw s e :
  fst (ensureDimensionDetected s) = Throw e ->
  is_NetworkError e || is_ConfigurationError e = true.
Proof.
  unfold ensureDimensionDetected. unfold_monad. destruct (_ && _); [|discriminate].
  pose proof (detectDimension_Throw JUndefined s) as Hd.
  destruct (detectDimension JUndefined s) as [[d|e'] s1]; simpl in *; [discriminate|].
  intros H. injection H as <-. apply Hd. reflexivity.
Qed.

(** What [embed] makes of the answer to its own request. *)
Lemma embed_outcome text s pt s1 :
  fst (preprocessTextForCode text s) = Return pt ->
  ensureDimensionDetected s = (Return tt, s1) ->
  snd (embed text s) = add_request (embed_request s1 pt) s1
  /\ match fst (makeRequest ByEmbed (this_host (this s1) +:+ "/v1/embeddings")
                  (JStr pt) (request_model (config_of s1)) s1) with
     | Throw e => fst (embed text s) = Throw e
     | Return j =>
         let embedding :=
           get_prop (nth 0 (array_items (get_prop j "data")) JUndefined) "embedding" in
         (exists message,
            fst (embed text s) = Throw (new_LlamaCppNetworkError message None))
         \/ (fst (embed text s)
             = Return {| vector := embedding; vec_dimension := this_dimension (this s1) |}
             /\ isArray embedding = true)
     end.
Proof.
  intros Hpt Hens. remember (embed text s) as r eqn:Hr.
  unfold embed in Hr. unfold bind at 1 in Hr.
  pose proof (preprocessTextForCode_state text s) as Hs.
  destruct (preprocessTextForCode text s) as [[pt'|e] s0]; cbn [fst snd] in Hs, Hpt;
    subst s0; [|discriminate].
  injection Hpt as ->. unfold bind at 1 in Hr. rewrite Hens in Hr.
  unfold bind, get_config, get_this, ret, throw in Hr. cbn beta iota in Hr.
  pose proof (makeRequest_state ByEmbed (this_host (this s1) +:+ "/v1/embeddings")
                (JStr pt) (request_model (config_of s1)) s1) as Hst.
  destruct (makeRequest ByEmbed (this_host (this s1) +:+ "/v1/embeddings")
              (JStr pt) (request_model (config_of s1)) s1) as [o s2].
  cbn [snd] in Hst. subst s2. cbn [fst].
  destruct o as [j|e]; [|subst r; auto].
  cbv zeta.
  destruct (not_an_object j); [subst r; cbn [fst snd]; eauto|].
  destruct (not_an_array (get_prop j "data")); [subst r; cbn [fst snd]; eauto|].
  destruct (length (array_items (get_prop j "data")) =? 0)%nat;
    [subst r; cbn [fst snd]; eauto|].
  destruct (not_an_object (nth 0 (array_items (get_prop j "data")) JUndefined));
    [subst r; cbn [fst snd]; eauto|].
  destruct (not_an_array
              (get_prop (nth 0 (array_items (get_prop j "data")) JUndefined) "embedding"))
    eqn:Harr; [subst r; cbn [fst snd]; eauto|].
  subst r. cbn [fst snd this add_request].
  split; [reflexivity|]. right. split; [reflexivity|].
  unfold not_an_array in Harr. apply orb_false_iff in Harr as [_ Harr].
  apply negb_false_iff in Harr. exact Harr.
Qed.

(** X9.  A vector that [embed] returns is the embedding array of the first
    element of the answer to its request, whatever else the answer holds, and
    the dimension reported with it is the cached one, not the vector's
    length. *)
Theorem embed_result_shape (s : State) (text : jsval) (v : EmbeddingVector) :
  fst (embed text s) = Return v ->
  let s' := snd (embed text s) in
  vec_dimension v = this_dimension (this s')
  /\ isArray (vector v) = true
  /\ exists s1 pt response j,
       s' = add_request (embed_request s1 pt) s1
       /\ fetch (net s1) (embed_request s1 pt) = Return response
       /\ json response = Return j
       /\ vector v = get_prop (nth 0 (array_items (get_prop j "data")) JUndefined)
                       "embedding".
Proof.
  intros Hret.
  destruct (embed_cases text s)
    as [(e & _ & He) | [(pt & e & s1 & _ & _ & He) | (pt & s1 & o & Hpt & Hens & He)]];
    try (rewrite He in Hret; discriminate Hret).
  destruct (embed_outcome text s pt s1 Hpt Hens) as [Hs Ho].
  pose proof (makeRequest_Return ByEmbed (this_host (this s1) +:+ "/v1/embeddings")
                (JStr pt) (request_model (config_of s1)) s1) as Hr.
  destruct (fst (makeRequest _ _ _ _ s1)) as [j|e].
  - destruct (Hr j eq_refl) as (response & Hf & _ & Hj).
    destruct Ho as [[message Hth] | [Hv Harr]]; [congruence|].
    rewrite Hv in Hret. injection Hret as <-. cbv zeta. rewrite Hs. simpl.
    split; [reflexivity|]. split; [exact Harr|].
    exists s1, pt, response, j. auto.
  - congruence.
Qed.

(** X10.  [detectDimension] does not write the cache: it changes neither the
    instance fields nor the configuration, sends at most one request, whose
    input is the preprocessed test text without the code prefix, and throws
    nothing but a ConfigurationError or a NetworkError. *)
Theorem detectDimension_reads_only (s : State) (testText : jsval) :
  let s' := snd (detectDimension testText s) in
  this s' = this s
  /\ heap s' = heap s
  /\ (net s' = net s
      \/ exists t p, test_text testText = Some t
                     /\ preprocessText (this_maxTokens (this s)) t = Return p
                     /\ net s' = net s ++ [detection_request s p]
                     /\ req_input (detection_request s p) = JStr p)
  /\ forall e, fst (detectDimension testText s) = Throw e ->
               is_NetworkError e || is_ConfigurationError e = true.
Proof.
  cbv zeta.
  destruct (detectDimension_state testText s) as [Hs | (t & p & Ht & Hp & Hs)];
    rewrite Hs.
  - repeat split; auto. apply detectDimension_Throw.
  - repeat split; [right; exists t, p; auto | apply detectDimension_Throw].
Qed.

(** X11.  Input is checked before anything is sent: [embed] of a value that is not
    a string, and [embedBatch] of a value that is not an array, of an empty
    array, or of an array with an element that is not a string, throw and
    leave the adapter as it was, with no request made. *)
Theorem input_checked_before_io (s : State) (v : jsval) :
  ((forall t, v <> JStr t) ->
   embed v s = (Throw (new_LlamaCppConfigurationError "Text must be a string"), s))
  /\ ((forall items, v <> JArr items) ->
      embedBatch v s
      = (Throw (new_LlamaCppConfigurationError "Texts must be an array"), s))
  /\ (v = JArr [] ->
      embedBatch v s
      = (Throw (new_LlamaCppConfigurationError "Texts array cannot be empty"), s))
  /\ (forall items,
        v = JArr items ->
        Exists (fun x => forall t, x <> JStr t) items ->
        exists e, embedBatch v s = (Throw e, s)).
Proof.
  split; [|split; [|split]].
  - intros Hno. unfold embed, bind, preprocessTextForCode.
    destruct v; try reflexivity. exfalso. exact (Hno s0 eq_refl).
  - intros Hno. unfold embedBatch, embedBatch_request, bind.
    destruct v; try reflexivity. exfalso. exact (Hno items eq_refl).
  - intros ->. reflexivity.
  - intros items -> Hex.
    assert (Hmap : exists e, Array_map preprocessTextForCode items s = (Throw e, s)).
    { induction Hex as [x items Hx | x items _ IH].
      - cbn [Array_map]. unfold bind at 1, preprocessTextForCode.
        destruct x; eauto. exfalso. exact (Hx s0 eq_refl).
      - cbn [Array_map]. unfold bind at 1.
        pose proof (preprocessTextForCode_state x s) as Hs.
        destruct (preprocessTextForCode x s) as [[pt|e] s1]; simpl in Hs; subst s1;
          [|eauto].
        unfold bind at 1. destruct IH as [e ->]. eauto. }
    destruct Hmap as [e Hmap].
    exists e. unfold embedBatch, embedBatch_request. unfold bind at 1.
    cbn [isArray negb array_items].
    destruct items as [|x items]; [inversion Hex|]. cbn [length Nat.eqb].
    unfold bind at 1. rewrite Hmap. reflexivity.
Qed.

Lemma Array_map_indexed_Throw dimension items index e :
  Array_map_indexed (embedBatch_item dimension) index items = Throw e ->
  is_NetworkError e = true.
Proof.
  revert index. induction items as [|x items IH]; intros index; [discriminate|].
  simpl. unfold embedBatch_item at 1.
  destruct (not_an_object x); [intros H; injection H as <-; reflexivity|].
  destruct (not_an_array _); [intros H; injection H as <-; reflexivity|].
  destruct (Array_map_indexed _ _ items) eqn:Hrest; [discriminate|].
  intros H. injection H as ->. exact (IH _ Hrest).
Qed.

Lemma embed_Throw text s e :
  fst (embed text s) = Throw e ->
  is_NetworkError e || is_ConfigurationError e = true
  \/ exists m t, preprocessText m t = Throw e.
Proof.
  intros Hth.
  destruct (embed_cases text s)
    as [(e' & Hpre & He) | [(pt & e' & s1 & _ & Hens & He) | (pt & s1 & o & Hpt & Hens & He)]].
  - rewrite He in Hth. injection Hth as ->.
    destruct (preprocessTextForCode_Throw text s e Hpre) as [Hc | (t & _ & Hh)].
    + left. rewrite Hc. apply orb_true_r.
    + right. eauto.
  - rewrite He in Hth. injection Hth as ->. left.
    apply (ensureDimensionDetected_Throw s). rewrite Hens. reflexivity.
  - destruct (embed_outcome text s pt s1 Hpt Hens) as [_ Ho].
    pose proof (makeRequest_Throw ByEmbed (this_host (this s1) +:+ "/v1/embeddings")
                  (JStr pt) (request_model (config_of s1)) s1) as Ht.
    destruct (fst (makeRequest _ _ _ _ s1)) as [j|e'].
    + destruct Ho as [[message Hm] | [Hv _]]; [|congruence].
      rewrite Hm in Hth. injection Hth as <-. left. reflexivity.
    + rewrite Ho in Hth. injection Hth as ->. left. apply Ht. reflexivity.
Qed.

Lemma embedBatch_Throw texts s e :
  fst (embedBatch texts s) = Throw e ->
  is_NetworkError e || is_ConfigurationError e = true
  \/ exists m t, preprocessText m t = Throw e.
Proof.
  unfold embedBatch, embedBatch_request. unfold bind at 1.
  destruct (negb (isArray texts)); [intros H; injection H as <-; left; reflexivity|].
  destruct (length (array_items texts) =? 0)%nat;
    [intros H; injection H as <-; left; reflexivity|].
  unfold bind at 1.
  pose proof (Array_map_preprocess_state (array_items texts) s) as Hs.
  pose proof (Array_map_preprocess_Throw (array_items texts) s) as Hp.
  destruct (Array_map preprocessTextForCode (array_items texts) s) as [[pts|e'] s0];
    cbn [fst snd] in Hs, Hp; subst s0.
  2:{ cbn [fst]. intros H. injection H as ->.
      destruct (Hp e eq_refl) as [Hc | [t Hh]]; [left; rewrite Hc; apply orb_true_r|eauto]. }
  unfold bind at 1.
  pose proof (ensureDimensionDetected_Throw s) as He.
  destruct (ensureDimensionDetected s) as [[[]|e'] s1]; cbn [fst] in He.
  2:{ cbn [fst]. intros H. injection H as ->. left. apply He. reflexivity. }
  unfold bind, get_config, get_this, ret. cbn beta iota.
  pose proof (makeRequest_Throw ByEmbedBatch (this_host (this s1) +:+ "/v1/embeddings")
                (JArr (map JStr pts)) (request_model (config_of s1)) s1) as Ht.
  destruct (makeRequest ByEmbedBatch _ _ _ s1) as [[j|e'] s2]; cbn [fst] in Ht.
  2:{ cbn [fst]. intros H. injection H as ->. left. apply Ht. reflexivity. }
  unfold embedBatch_response, throw, lift.
  destruct (not_an_object j); [intros H; injection H as <-; left; reflexivity|].
  destruct (not_an_array (get_prop j "data"));
    [intros H; injection H as <-; left; reflexivity|].
  destruct (length (array_items (get_prop j "data")) =? 0)%nat;
    [intros H; injection H as <-; left; reflexivity|].
  cbn [fst]. intros H. left.
  rewrite (Array_map_indexed_Throw _ _ _ _ H). reflexivity.
Qed.

(** X12.  What [embed] and [embedBatch] throw is a ConfigurationError, a
    NetworkError, or the very value the inherited [preprocessText] threw,
    which they do not wrap. *)
Theorem two_error_kinds (s : State) (v : jsval) (e : thrown) :
  (fst (embed v s) = Throw e ->
   is_NetworkError e || is_ConfigurationError e = true
   \/ exists m t, preprocessText m t = Throw e)
  /\ (fst (embedBatch v s) = Throw e ->
      is_NetworkError e || is_ConfigurationError e = true
      \/ exists m t, preprocessText m t = Throw e).
Proof.
  split; [apply embed_Throw | apply embedBatch_Throw].
Qed.

(** *** The requests of a call *)

(** The requests one [embed] or [embedBatch] call adds: at most a detection
    request, sent only while no dimension is known, and then at most the
    call's own request. *)
Lemma run_call_requests c s :
  exists l main,
    net (snd (run_call c s)) = net s ++ l
    /\ extends s (snd (run_call c s)) l
    /\ is_detection main = false
    /\ req_url main = this_host (this s) +:+ "/v1/embeddings"
    /\ req_model main = request_model (config_of s)
    /\ req_timeout main = js_or (timeout (config_of s)) (JNum (Num 30000))
    /\ (l = [] \/ l = [main]
        \/ (this_dimensionDetected (this s) = false
            /\ truthy (dimension (config_of s)) = false
            /\ exists p, l = [detection_request s p] \/ l = [detection_request s p; main])).
Proof.
  rewrite run_call_state.
  assert (Hshape : forall s1 o,
             ensureDimensionDetected s = (o, s1) ->
             exists l0, extends s s1 l0
                        /\ (l0 = []
                            \/ (this_dimensionDetected (this s) = false
                                /\ truthy (dimension (config_of s)) = false
                                /\ exists p, l0 = [detection_request s p]))).
  { intros s1 o Hens.
    destruct (ensureDimensionDetected_cases s)
      as [[He _] | (Hflag & Hdim & [[e He] | [(e & p & _ & He) | (d & p & r & j & _ & He & _)]])];
      rewrite He in Hens; injection Hens as _ <-.
    - exists []. split; [apply extends_refl | auto].
    - exists []. split; [apply extends_refl | auto].
    - exists [detection_request s p]. split; [|right; eauto].
      apply (extends_add_request s s [] _ (extends_refl s)).
    - exists [detection_request s p]. split; [|right; eauto].
      apply extends_detected; assumption. }
  assert (Hfinish : forall s1 l0 main,
             extends s s1 l0 ->
             (l0 = []
              \/ (this_dimensionDetected (this s) = false
                  /\ truthy (dimension (config_of s)) = false
                  /\ exists p, l0 = [detection_request s p])) ->
             (l0 ++ [main] = [] \/ l0 ++ [main] = [main]
              \/ (this_dimensionDetected (this s) = false
                  /\ truthy (dimension (config_of s)) = false
                  /\ exists p, l0 ++ [main] = [detection_request s p]
                               \/ l0 ++ [main] = [detection_request s p; main]))).
  { intros s1 l0 main _ [-> | (Hf & Hd & p & ->)]; [auto|].
    right. right. split; [exact Hf|]. split; [exact Hd|]. exists p. auto. }
  destruct c as [t | ts].
  - destruct (embed_cases t s)
      as [(e & _ & He) | [(pt & e & s1 & _ & Hens & He) | (pt & s1 & o & _ & Hens & He)]];
      rewrite He; cbn [snd].
    + exists [], (embed_request s ""). split; [symmetry; apply app_nil_r|].
      split; [apply extends_refl|]. repeat (split; [reflexivity|]). auto.
    + destruct (Hshape s1 _ Hens) as (l0 & Hext & Hl0).
      exists l0, (embed_request s ""). split; [apply (ext_net _ _ _ Hext)|].
      split; [exact Hext|]. repeat (split; [reflexivity|]).
      destruct Hl0 as [-> | (Hf & Hd & p & ->)]; [auto|].
      right. right. eauto.
    + destruct (Hshape s1 _ Hens) as (l0 & Hext & Hl0).
      rewrite (embed_request_extends s s1 l0 pt Hext).
      exists (l0 ++ [embed_request s pt]), (embed_request s pt).
      pose proof (extends_add_request s s1 l0 (embed_request s pt) Hext) as Hext'.
      split; [apply (ext_net _ _ _ Hext')|]. split; [exact Hext'|].
      repeat (split; [reflexivity|]). eapply Hfinish; eassumption.
  - destruct (embedBatch_cases ts s)
      as [(e & He) | [(pts & e & s1 & _ & Hens & He) | (pts & s1 & o & _ & Hens & He)]];
      rewrite He; cbn [snd].
    + exists [], (embedBatch_request_of s []). split; [symmetry; apply app_nil_r|].
      split; [apply extends_refl|]. repeat (split; [reflexivity|]). auto.
    + destruct (Hshape s1 _ Hens) as (l0 & Hext & Hl0).
      exists l0, (embedBatch_request_of s []). split; [apply (ext_net _ _ _ Hext)|].
      split; [exact Hext|]. repeat (split; [reflexivity|]).
      destruct Hl0 as [-> | (Hf & Hd & p & ->)]; [auto|].
      right. right. eauto.
    + destruct (Hshape s1 _ Hens) as (l0 & Hext & Hl0).
      rewrite (embedBatch_request_of_extends s s1 l0 pts Hext).
      exists (l0 ++ [embedBatch_request_of s pts]), (embedBatch_request_of s pts).
      pose proof (extends_add_request s s1 l0 (embedBatch_request_of s pts) Hext) as Hext'.
      split; [apply (ext_net _ _ _ Hext')|]. split; [exact Hext'|].
      repeat (split; [reflexivity|]). eapply Hfinish; eassumption.
Qed.

(** X13.  One [embed] or [embedBatch] call sends at most two requests, and at most
    one once the dimension is known or fixed; each goes to the adapter's host
    followed by [/v1/embeddings], names the configured model or
    [embedding-model], and runs under the configured timeout or 30000. *)
Theorem call_request_budget (s : State) (c : Call) :
  exists l,
    net (snd (run_call c s)) = net s ++ l
    /\ (length l <= 2)%nat
    /\ (this_dimensionDetected (this s) = true \/ truthy (dimension (config_of s)) = true ->
        (length l <= 1)%nat)
    /\ Forall (fun r => req_url r = this_host (this s) +:+ "/v1/embeddings"
                        /\ req_model r = request_model (config_of s)
                        /\ req_timeout r = js_or (timeout (config_of s)) (JNum (Num 30000)))
         l.
Proof.
  destruct (run_call_requests c s)
    as (l & main & Hnet & _ & _ & Hurl & Hmodel & Htime & Hl).
  exists l. split; [exact Hnet|].
  destruct Hl as [-> | [-> | (Hflag & Hdim & p & [-> | ->])]]; simpl.
  - split; [lia|]. split; [lia|]. constructor.
  - split; [lia|]. split; [lia|]. repeat constructor; assumption.
  - split; [lia|]. split; [lia|]. repeat constructor.
  - split; [lia|]. split; [intros [H|H]; congruence|]. repeat constructor; assumption.
Qed.

End Calls.

Section Composition.

Context {env : Environment}.

(** *** A fixed dimension *)

Lemma run_call_fixed c s :
  truthy (dimension (config_of s)) = true ->
  this (snd (run_call c s)) = this s
  /\ config_of (snd (run_call c s)) = config_of s
  /\ detection_count (net (snd (run_call c s))) = detection_count (net s).
Proof.
  intros Hdim.
  destruct (run_call_requests c s) as (l & main & Hnet & Hext & Hmain & _ & _ & _ & Hl).
  split; [apply (ext_known _ _ _ Hext); auto|].
  split; [apply (extends_config_of _ _ _ Hext)|].
  rewrite Hnet, detection_count_app.
  destruct Hl as [-> | [-> | (_ & Hno & _)]]; [| | congruence].
  - change (detection_count []) with 0%nat. lia.
  - rewrite detection_count_singleton, Hmain. lia.
Qed.

(** X14.  With a dimension configured, no sequence of [embed] and [embedBatch]
    calls sends a detection request or changes the instance fields, and
    [setModel] with a valid name only stores the name: it sends nothing and
    the dimension stays. *)
Theorem fixed_dimension_never_detects (s : State) (calls : list Call) (name : string) :
  truthy (dimension (config_of s)) = true ->
  this (run_calls calls s) = this s
  /\ detection_count (net (run_calls calls s)) = detection_count (net s)
  /\ (trim name <> "" ->
      setModel (JStr name) s = (Return tt, model_set name s)
      /\ net (model_set name s) = net s
      /\ this_dimension (this (model_set name s)) = this_dimension (this s)
      /\ truthy (dimension (config_of (model_set name s))) = true).
Proof.
  intros Hdim. split; [|split].
  - revert s Hdim. induction calls as [|c calls IH]; intros s Hdim; [reflexivity|].
    simpl. destruct (run_call_fixed c s Hdim) as (Hthis & Hcfg & _).
    rewrite IH; [exact Hthis | rewrite Hcfg; exact Hdim].
  - revert s Hdim. induction calls as [|c calls IH]; intros s Hdim; [reflexivity|].
    simpl. destruct (run_call_fixed c s Hdim) as (_ & Hcfg & Hcount).
    rewrite IH; [exact Hcount | rewrite Hcfg; exact Hdim].
  - intros Hname.
    assert (Hcfg : truthy (dimension (config_of (model_set name s))) = true).
    { rewrite config_of_model_set. exact Hdim. }
    split; [|auto].
    unfold setModel. destruct (String.eqb_spec (trim name) ""); [contradiction|].
    unfold_monad. fold (model_set name s). rewrite Hcfg. reflexivity.
Qed.

(** *** What a call leaves of a detection *)

(** X15.  After a call made while no dimension is known, either the instance is
    as it was, so that a failed detection is tried again by the next call, or
    a positive dimension is cached and exactly one detection request was
    sent; the second also when the call's own request then failed. *)
Theorem detection_outcome_kept (s : State) (c : Call) :
  this_dimensionDetected (this s) = false ->
  truthy (dimension (config_of s)) = false ->
  let s' := snd (run_call c s) in
  (this s' = this s /\ (detection_count (net s') <= S (detection_count (net s)))%nat)
  \/ (exists d, 0 < d
                /\ this s' = set_this_dimensionDetected true
                               (set_this_dimension (JNum (Num d)) (this s))
                /\ detection_count (net s') = S (detection_count (net s))).
Proof.
  intros Hflag Hdim. cbv zeta. rewrite run_call_state.
  assert (Hens : forall o s1,
             ensureDimensionDetected s = (o, s1) ->
             (this s1 = this s /\ net s1 = net s)
             \/ (this s1 = this s /\ exists p, net s1 = net s ++ [detection_request s p])
             \/ (exists d p, 0 < d
                             /\ s1 = detected d (add_request (detection_request s p) s))).
  { intros o s1 Hs1.
    destruct (ensureDimensionDetected_cases s)
      as [[_ [H|H]] | (_ & _ & [[e He] | [(e & p & _ & He) | (d & p & r & j & _ & He & _ & _ & _ & _ & Hpos)]])];
      try congruence; rewrite He in Hs1; injection Hs1 as _ <-.
    - left. auto.
    - right. left. split; [reflexivity|]. eauto.
    - right. right. eauto. }
  assert (Hone : forall p, detection_count (net s ++ [detection_request s p])
                           = S (detection_count (net s))).
  { intros p. rewrite detection_count_app, detection_count_singleton.
    change (is_detection (detection_request s p)) with true. cbv iota. lia. }
  assert (Hmain : forall l (main : Request),
             is_detection main = false ->
             detection_count (l ++ [main]) = detection_count l).
  { intros l main Hm. rewrite detection_count_app, detection_count_singleton, Hm. lia. }
  destruct c as [t | ts].
  - destruct (embed_cases t s)
      as [(e & _ & He) | [(pt & e & s1 & _ & Hs1 & He) | (pt & s1 & o & _ & Hs1 & He)]];
      rewrite He; cbn [snd].
    + left. split; [reflexivity | lia].
    + destruct (Hens _ _ Hs1) as [[Ht Hn] | [[Ht [p Hn]] | (d & p & Hpos & ->)]].
      * left. rewrite Hn. split; [exact Ht | lia].
      * left. rewrite Hn, Hone. split; [exact Ht | lia].
      * right. exists d. simpl. rewrite Hone. auto.
    + destruct (Hens _ _ Hs1) as [[Ht Hn] | [[Ht [p Hn]] | (d & p & Hpos & ->)]].
      * left. simpl. rewrite Hmain by reflexivity. rewrite Hn. split; [exact Ht | lia].
      * left. simpl. rewrite Hmain by reflexivity. rewrite Hn, Hone. split; [exact Ht | lia].
      * right. exists d. simpl. rewrite Hmain by reflexivity. rewrite Hone. auto.
  - destruct (embedBatch_cases ts s)
      as [(e & He) | [(pts & e & s1 & _ & Hs1 & He) | (pts & s1 & o & _ & Hs1 & He)]];
      rewrite He; cbn [snd].
    + left. split; [reflexivity | lia].
    + destruct (Hens _ _ Hs1) as [[Ht Hn] | [[Ht [p Hn]] | (d & p & Hpos & ->)]].
      * left. rewrite Hn. split; [exact Ht | lia].
      * left. rewrite Hn, Hone. split; [exact Ht | lia].
      * right. exists d. simpl. rewrite Hone. auto.
    + destruct (Hens _ _ Hs1) as [[Ht Hn] | [[Ht [p Hn]] | (d & p & Hpos & ->)]].
      * left. simpl. rewrite Hmain by reflexivity. rewrite Hn. split; [exact Ht | lia].
      * left. simpl. rewrite Hmain by reflexivity. rewrite Hn, Hone. split; [exact Ht | lia].
      * right. exists d. simpl. rewrite Hmain by reflexivity. rewrite Hone. auto.
Qed.

(** *** The prefix switches *)


(** *** setHost *)

(** X17.  [setHost] with an http or https URL keeps the URL as given in the
    configuration and the URL without one trailing slash for requests; it
    sends nothing itself, and the calls after it go to the new host. *)
Theorem setHost_stores (s : State) (url protocol : string) (c : Call) :
  URL_protocol url = Some protocol ->
  protocol = "http:" \/ protocol = "https:" ->
  let s' := snd (setHost (JStr url) s) in
  fst (setHost (JStr url) s) = Return tt
  /\ host (config_of s') = JStr url
  /\ this_host (this s') = normalizeHost url
  /\ net s' = net s
  /\ exists l, net (snd (run_call c s')) = net s' ++ l
               /\ Forall (fun r => req_url r = normalizeHost url +:+ "/v1/embeddings") l.
Proof.
  intros Hurl Hprotocol s'.
  assert (Hrun : setHost (JStr url) s
                 = (Return tt,
                    with_heap (<[this_config (this s) := set_host (JStr url) (config_of s)]>
                                 (heap s))
                      (with_this (set_this_host (normalizeHost url) (this s)) s))).
  { unfold setHost, validateHostUrl. rewrite Hurl.
    destruct Hprotocol as [-> | ->]; reflexivity. }
  unfold s'. rewrite Hrun. cbn [fst snd].
  split; [reflexivity|]. split; [|split; [reflexivity|split; [reflexivity|]]].
  - unfold config_of at 1. simpl. rewrite lookup_total_insert_eq. reflexivity.
  - match goal with |- context [run_call c ?st] =>
      destruct (run_call_requests c st) as (l & main & Hnet & _ & _ & Hmain & _ & _ & Hl)
    end.
    exists l. split; [exact Hnet|]. cbn [this with_heap with_this set_this_host this_host] in Hmain.
    destruct Hl as [-> | [-> | (_ & _ & p & [-> | ->])]]; repeat constructor; assumption.
Qed.

(** *** Other objects in the store *)

(** X18.  No operation writes to a configuration object other than the adapter's
    own.  So the object [getConfig] returned is a snapshot: it keeps the
    values of the moment of the call through every later operation, the
    setters included. *)
Theorem getConfig_snapshot_is_stable (s : State) (ops : list Operation) :
  is_Some (heap s !! this_config (this s)) ->
  (forall l c, heap s !! l = Some c -> l <> this_config (this s) ->
               heap (snd (run_operations ops s)) !! l = Some c)
  /\ heap (snd (run_operations ops (snd (getConfig s)))) !! fresh (dom (heap s))
     = Some (config_of s).
Proof.
  intros Halloc.
  assert (Hkeep : forall s0 l c, heap s0 !! l = Some c -> l <> this_config (this s0) ->
                    heap (snd (run_operations ops s0)) !! l = Some c).
  { intros s0 l c Hl Hne.
    assert (Hid : mutate l c s0 = s0).
    { unfold mutate, with_heap. rewrite (insert_id _ _ _ Hl). destruct s0; reflexivity. }
    pose proof (frames_run_operations l c ops s0 (ex_intro _ c Hl) Hne) as Hfr.
    rewrite Hid in Hfr.
    apply (f_equal snd) in Hfr. cbn [snd] in Hfr.
    rewrite Hfr. unfold mutate, with_heap. cbn [heap]. apply lookup_insert_eq. }
  split; [apply Hkeep|].
  apply Hkeep.
  - unfold getConfig. cbn [snd heap with_heap]. apply lookup_insert_eq.
  - unfold getConfig. cbn [snd this with_heap]. intros Heq.
    pose proof (is_fresh (dom (heap s))) as Hf. rewrite Heq in Hf.
    apply Hf, elem_of_dom, Halloc.
Qed.

(** *** What makeRequest reports *)

(** X19.  A response outside 2xx becomes a NetworkError carrying the status code,
    the status text and the body, or a placeholder when the body cannot be
    read; a body that is not JSON becomes a NetworkError that keeps the parse
    failure; an abort of the request becomes a NetworkError that names the
    host and the timeout in force, printed in decimal when it is a positive
    integer up to 2^53 - 1. *)
Theorem makeRequest_reports (s : State) (caller : Caller) (url : string)
    (input m : jsval) :
  let r := request_of s caller url input m in
  (forall response,
     fetch (net s) r = Return response -> ok response = false ->
     fst (makeRequest caller url input m s)
     = Throw (new_LlamaCppNetworkError
                ("HTTP " +:+ pretty (status response) +:+ " (" +:+ statusText response
                 +:+ "): " +:+ match text response with
                               | Return details => details
                               | Throw _ => "Unable to read error response"
                               end) None))
  /\ (forall response e,
        fetch (net s) r = Return response -> ok response = true ->
        json response = Throw e ->
        fst (makeRequest caller url input m s)
        = Throw (new_LlamaCppNetworkError "Invalid JSON response from server" (as_Error e)))
  /\ (forall message z,
        req_timeout r = JNum (Num z) ->
        0 < z <= 9007199254740991 ->
        fetch (net s) r = Throw (OtherError "AbortError" message) ->
        fst (makeRequest caller url input m s)
        = Throw (new_LlamaCppNetworkError
                   ("Request timeout after " +:+ pretty z
                    +:+ "ms - server at " +:+ this_host (this s) +:+ " not responding")
                   (Some (OtherError "AbortError" message)))).
Proof.
  cbv zeta. unfold makeRequest, makeRequest_try, makeRequest_catch, do_fetch, request_of.
  unfold bind, get_config, get_this, try_catch, throw, ret. cbn beta iota.
  split; [|split].
  - intros response -> ->. reflexivity.
  - intros response e -> -> ->. reflexivity.
  - intros message z Hz _ ->. cbn [req_timeout] in Hz. cbn beta iota.
    cbn [is_NetworkError is_ConfigurationError orb is_Error error_name].
    rewrite Hz. reflexivity.
Qed.

End Composition.

(** ** The further properties at work *)

Section Runs.

Import Scenario.

Lemma constructor_rejects_negative_overrides_witness :
  (exists z, z < 0
             /\ (dimension (store_of (set_dimension (JNum (Num (-4))) empty_config) !!! 1%nat)
                 = JNum (Num z)
                 \/ maxTokens (store_of (set_dimension (JNum (Num (-4))) empty_config) !!! 1%nat)
                    = JNum (Num z)))
  /\ exists message,
       constructor (env := env_ok) (Some 1%nat)
         (store_of (set_dimension (JNum (Num (-4))) empty_config))
       = (Throw (LlamaCppConfigurationError message),
          store_of (set_dimension (JNum (Num (-4))) empty_config)).
Proof.
  assert (H : exists z, z < 0
                /\ (dimension (store_of (set_dimension (JNum (Num (-4))) empty_config)
                                !!! 1%nat) = JNum (Num z)
                    \/ maxTokens (store_of (set_dimension (JNum (Num (-4))) empty_config)
                                    !!! 1%nat) = JNum (Num z))).
  { exists (-4). split; [lia|]. left. reflexivity. }
  split; [exact H|].
  exact (proj2 (constructor_rejects_negative_overrides (env := env_ok) 1%nat _) H).
Defined.

Lemma constructor_rejects_bad_timeout_witness :
  timeout (store_of (set_timeout (JNum (Num 0)) empty_config) !!! 1%nat) <> JUndefined
  /\ exists message,
       constructor (env := env_ok) (Some 1%nat)
         (store_of (set_timeout (JNum (Num 0)) empty_config))
       = (Throw (LlamaCppConfigurationError message),
          store_of (set_timeout (JNum (Num 0)) empty_config)).
Proof.
  assert (H1 : timeout (store_of (set_timeout (JNum (Num 0)) empty_config) !!! 1%nat)
               <> JUndefined) by (vm_compute; discriminate).
  split; [exact H1|].
  apply (constructor_rejects_bad_timeout (env := env_ok) 1%nat _ H1).
  right. exists 0. split; [reflexivity | lia].
Defined.

Lemma constructor_rejects_bad_host_witness :
  host (store_of (set_host (JStr "ftp://files/") empty_config) !!! 1%nat)
  = JStr "ftp://files/"
  /\ exists message,
       constructor (env := env_ok) (Some 1%nat)
         (store_of (set_host (JStr "ftp://files/") empty_config))
       = (Throw (LlamaCppConfigurationError message),
          store_of (set_host (JStr "ftp://files/") empty_config)).
Proof.
  assert (H1 : host (store_of (set_host (JStr "ftp://files/") empty_config) !!! 1%nat)
               = JStr "ftp://files/") by reflexivity.
  split; [exact H1|].
  apply (constructor_rejects_bad_host (env := env_ok) 1%nat _ "ftp://files/" H1).
  - discriminate.
  - right. exists "ftp:". split; [reflexivity|]. split; discriminate.
Defined.

Lemma constructor_host_and_dimension_witness :
  fst (constructor (env := env_ok) (Some 1%nat)
         (store_of (set_dimension (JNum (Num 5)) (set_host (JStr "http://h:1/") empty_config))))
  = Return {| this_config := 1%nat;
              this_dimension := JNum (Num 5);
              this_dimensionDetected := true;
              this_maxTokens := JNum (Num 8192);
              this_host := "http://h:1";
              this_codePrefix := DEFAULT_CODE_PREFIX |}
  /\ 0 < 5.
Proof.
  assert (H : fst (constructor (env := env_ok) (Some 1%nat)
                     (store_of (set_dimension (JNum (Num 5))
                                  (set_host (JStr "http://h:1/") empty_config))))
              = Return {| this_config := 1%nat;
                          this_dimension := JNum (Num 5);
                          this_dimensionDetected := true;
                          this_maxTokens := JNum (Num 8192);
                          this_host := "http://h:1";
                          this_codePrefix := DEFAULT_CODE_PREFIX |})
    by (vm_compute; reflexivity).
  split; [exact H|].
  destruct (constructor_host_and_dimension (env := env_ok) 1%nat _ _ H) as (_ & _ & Hd & _).
  exact (proj1 (Hd 5 eq_refl ltac:(discriminate))).
Defined.

Lemma setHost_rejects_bad_url_witness :
  exists message,
    setHost (env := env_ok) (JStr "ftp://files") fresh_adapter
    = (Throw (LlamaCppConfigurationError message), fresh_adapter).
Proof.
  apply (setHost_rejects_bad_url (env := env_ok) fresh_adapter "ftp://files").
  right. exists "ftp:". split; [reflexivity|]. split; discriminate.
Defined.

Lemma mutators_reject_bad_arguments_witness :
  (exists z, JNum (Num 700000) = JNum (Num z) /\ (z <= 0 \/ 600000 < z))
  /\ exists message,
       setTimeout (env := env_ok) (JNum (Num 700000)) fresh_adapter
       = (Throw (LlamaCppConfigurationError message), fresh_adapter).
Proof.
  assert (H : exists z, JNum (Num 700000) = JNum (Num z) /\ (z <= 0 \/ 600000 < z)).
  { exists 700000. split; [reflexivity | lia]. }
  split; [exact H|].
  exact (proj1 (proj2 (proj2 (proj2
           (mutators_reject_bad_arguments (env := env_ok) fresh_adapter
              (JNum (Num 700000))))))
           (or_intror H)).
Defined.

Lemma setTimeout_range_witness :
  0 < 5000 <= 600000
  /\ timeout (config_of (snd (setTimeout (env := env_ok) (JNum (Num 5000)) fresh_adapter)))
     = JNum (Num 5000).
Proof.
  assert (H : 0 < 5000 <= 600000) by lia.
  split; [exact H|].
  exact (proj1 (proj1 (proj2 (setTimeout_range (env := env_ok) fresh_adapter 5000)) H)).
Defined.

Lemma normalizeHost_slash_witness :
  (forall rest, "h" <> rest +:+ "/") /\ normalizeHost "h" = "h".
Proof.
  assert (H : forall rest, "h" <> rest +:+ "/").
  { intros [|c [|c' rest]]; discriminate. }
  split; [exact H|].
  exact (proj2 (normalizeHost_slash "h") H).
Defined.

Lemma embed_result_shape_witness :
  fst (embed (env := env_ok) (JStr "foo") fixed_adapter)
  = Return {| vector := JArr [JNum (Num 1); JNum (Num 2); JNum (Num 3)];
              vec_dimension := JNum (Num 5) |}
  /\ JNum (Num 5)
     = this_dimension (this (snd (embed (env := env_ok) (JStr "foo") fixed_adapter))).
Proof.
  assert (H : fst (embed (env := env_ok) (JStr "foo") fixed_adapter)
              = Return {| vector := JArr [JNum (Num 1); JNum (Num 2); JNum (Num 3)];
                          vec_dimension := JNum (Num 5) |})
    by (vm_compute; reflexivity).
  split; [exact H|].
  exact (proj1 (embed_result_shape (env := env_ok) fixed_adapter (JStr "foo") _ H)).
Defined.

Lemma input_checked_before_io_witness :
  (forall t, JNum (Num 7) <> JStr t)
  /\ embed (env := env_ok) (JNum (Num 7)) fresh_adapter
     = (Throw (new_LlamaCppConfigurationError "Text must be a string"), fresh_adapter)
  /\ Exists (fun x => forall t, x <> JStr t) [JStr "a"; JNull]
  /\ exists e, embedBatch (env := env_ok) (JArr [JStr "a"; JNull]) fresh_adapter
               = (Throw e, fresh_adapter).
Proof.
  assert (H1 : forall t, JNum (Num 7) <> JStr t) by discriminate.
  assert (H2 : Exists (fun x => forall t, x <> JStr t) [JStr "a"; JNull]).
  { right. left. discriminate. }
  split; [exact H1|].
  split; [exact (proj1 (input_checked_before_io (env := env_ok) fresh_adapter _) H1)|].
  split; [exact H2|].
  exact (proj2 (proj2 (proj2
           (input_checked_before_io (env := env_ok) fresh_adapter
              (JArr [JStr "a"; JNull]))))
           [JStr "a"; JNull] eq_refl H2).
Defined.

Lemma two_error_kinds_witness :
  fst (embed (env := env_no_hook) (JStr "foo") fresh_adapter)
  = Throw (OtherError "RangeError" "text too long")
  /\ (is_NetworkError (OtherError "RangeError" "text too long")
      || is_ConfigurationError (OtherError "RangeError" "text too long") = true
      \/ exists m t, preprocessText (Environment := env_no_hook) m t
                     = Throw (OtherError "RangeError" "text too long")).
Proof.
  assert (H : fst (embed (env := env_no_hook) (JStr "foo") fresh_adapter)
              = Throw (OtherError "RangeError" "text too long")) by reflexivity.
  split; [exact H|].
  exact (proj1 (two_error_kinds (env := env_no_hook) fresh_adapter (JStr "foo") _) H).
Defined.

Lemma fixed_dimension_never_detects_witness :
  truthy (dimension (config_of fixed_adapter)) = true
  /\ detection_count
       (net (run_calls (env := env_ok)
               [CallEmbed (JStr "a"); CallEmbedBatch (JArr [JStr "b"; JStr "c"])]
               fixed_adapter)) = 0%nat.
Proof.
  assert (H : truthy (dimension (config_of fixed_adapter)) = true) by reflexivity.
  split; [exact H|].
  exact (proj1 (proj2
           (fixed_dimension_never_detects (env := env_ok) fixed_adapter
              [CallEmbed (JStr "a"); CallEmbedBatch (JArr [JStr "b"; JStr "c"])]
              "m" H))).
Defined.

Lemma detection_outcome_kept_witness :
  this_dimensionDetected (this fresh_adapter) = false
  /\ truthy (dimension (config_of fresh_adapter)) = false
  /\ fst (run_call (env := env_once) (CallEmbed (JStr "foo")) fresh_adapter)
     = Throw (new_LlamaCppNetworkError
                "HTTP 503 (Service Unavailable): Unable to read error response" None)
  /\ this_dimensionDetected
       (this (snd (run_call (env := env_once) (CallEmbed (JStr "foo")) fresh_adapter)))
     = true
  /\ ((this (snd (run_call (env := env_once) (CallEmbed (JStr "foo")) fresh_adapter))
       = this fresh_adapter
       /\ (detection_count
             (net (snd (run_call (env := env_once) (CallEmbed (JStr "foo")) fresh_adapter)))
           <= S (detection_count (net fresh_adapter)))%nat)
      \/ exists d, 0 < d
          /\ this (snd (run_call (env := env_once) (CallEmbed (JStr "foo")) fresh_adapter))
             = set_this_dimensionDetected true
                 (set_this_dimension (JNum (Num d)) (this fresh_adapter))
          /\ detection_count
               (net (snd (run_call (env := env_once) (CallEmbed (JStr "foo")) fresh_adapter)))
             = S (detection_count (net fresh_adapter))).
Proof.
  assert (H1 : this_dimensionDetected (this fresh_adapter) = false) by reflexivity.
  assert (H2 : truthy (dimension (config_of fresh_adapter)) = false) by reflexivity.
  split; [exact H1|]. split; [exact H2|].
  split; [vm_compute; reflexivity|]. split; [vm_compute; reflexivity|].
  exact (detection_outcome_kept (env := env_once) fresh_adapter (CallEmbed (JStr "foo"))
           H1 H2).
Defined.


Lemma setHost_stores_witness :
  URL_protocol (Environment := env_ok) "https://embed.example:8443/" = Some "https:"
  /\ this_host (this (snd (setHost (env := env_ok) (JStr "https://embed.example:8443/")
                             fresh_adapter)))
     = "https://embed.example:8443".
Proof.
  assert (H1 : URL_protocol (Environment := env_ok) "https://embed.example:8443/"
               = Some "https:") by reflexivity.
  split; [exact H1|].
  exact (proj1 (proj2 (proj2
           (setHost_stores (env := env_ok) fresh_adapter "https://embed.example:8443/"
              "https:" (CallEmbed (JStr "foo")) H1 (or_intror eq_refl))))).
Defined.

Lemma getConfig_snapshot_is_stable_witness :
  is_Some (heap fresh_adapter !! this_config (this fresh_adapter))
  /\ heap (snd (run_operations (env := env_ok)
                  [OpSetTimeout (JNum (Num 5000)); OpSetModel (JStr "other")]
                  (snd (getConfig fresh_adapter))))
     !! fresh (dom (heap fresh_adapter))
     = Some (config_of fresh_adapter).
Proof.
  assert (H1 : is_Some (heap fresh_adapter !! this_config (this fresh_adapter))).
  { exists (set_codePrefix (JBool true) empty_config). reflexivity. }
  split; [exact H1|].
  exact (proj2 (getConfig_snapshot_is_stable (env := env_ok) fresh_adapter
                  [OpSetTimeout (JNum (Num 5000)); OpSetModel (JStr "other")] H1)).
Defined.

Lemma makeRequest_reports_witness :
  fetch (Environment := env_503) (net fresh_adapter)
    (request_of fresh_adapter ByEmbed "http://localhost:8080/v1/embeddings"
       (JStr "foo") (JStr "embedding-model"))
  = Return response_503
  /\ ok response_503 = false
  /\ fst (makeRequest (env := env_503) ByEmbed "http://localhost:8080/v1/embeddings"
            (JStr "foo") (JStr "embedding-model") fresh_adapter)
     = Throw (new_LlamaCppNetworkError
                "HTTP 503 (Service Unavailable): Unable to read error response" None)
  /\ 0 < 30000 <= 9007199254740991
  /\ fst (makeRequest (env := env_abort) ByEmbed "http://localhost:8080/v1/embeddings"
            (JStr "foo") (JStr "embedding-model") fresh_adapter)
     = Throw (new_LlamaCppNetworkError
                "Request timeout after 30000ms - server at http://localhost:8080 not responding"
                (Some abort_error)).
Proof.
  split; [reflexivity|]. split; [reflexivity|].
  split; [|split; [lia|]].
  - exact (proj1 (makeRequest_reports (env := env_503) fresh_adapter ByEmbed
                    "http://localhost:8080/v1/embeddings" (JStr "foo")
                    (JStr "embedding-model")) response_503 eq_refl eq_refl).
  - exact (proj2 (proj2 (makeRequest_reports (env := env_abort) fresh_adapter ByEmbed
                           "http://localhost:8080/v1/embeddings" (JStr "foo")
                           (JStr "embedding-model")))
             "This operation was aborted" 30000 eq_refl ltac:(lia) eq_refl).
Defined.

Lemma detectDimension_reads_only_witness :
  fst (detectDimension (env := env_503) JUndefined fresh_adapter)
  = Throw (new_LlamaCppNetworkError
             "HTTP 503 (Service Unavailable): Unable to read error response" None)
  /\ this (snd (detectDimension (env := env_503) JUndefined fresh_adapter))
     = this fresh_adapter.
Proof.
  split; [vm_compute; reflexivity|].
  exact (proj1 (detectDimension_reads_only (env := env_503) fresh_adapter JUndefined)).
Defined.

Lemma call_request_budget_witness :
  this_dimensionDetected (this fixed_adapter) = true
  /\ exists l,
       net (snd (run_call (env := env_ok) (CallEmbed (JStr "foo")) fixed_adapter))
       = net fixed_adapter ++ l
       /\ (length l <= 1)%nat.
Proof.
  assert (H : this_dimensionDetected (this fixed_adapter) = true) by reflexivity.
  split; [exact H|].
  destruct (call_request_budget (env := env_ok) fixed_adapter (CallEmbed (JStr "foo")))
    as (l & Hnet & _ & Hone & _).
  exists l. split; [exact Hnet | exact (Hone (or_introl H))].
Defined.

End Runs.
